(** * LDAP client operations Delete and Modify: request encoders and
      response handling (package ldap: modify.go and the file of the
      Delete operation).

    The development has three layers.
    - [Packet] trees and the functional reading of the request encoders
      ([PartialAttribute_encode], [ModifyRequest_encode], [DelRequest_encode]).
    - An imperative reading of the same encoders over a heap of packet
      cells (module [Imp]), where [AppendChild] mutates the parent cell as
      the Go code does; it is related to the functional reading by a
      representation predicate.
    - The operations [Del] and [Modify], written in a state monad over the
      connection, with [defer], panics and the blocking channel receive
      made explicit.

    What the two files take from the asn1 package and from other files of
    package ldap is either a field of the classes [BerCodec] and [ConnEnv],
    left open, or modelled from the specification and marked so. Module
    [Stub] fixes one choice for all of it, on which the scenarios run. *)

From Stdlib Require Import ZArith String List Lia.
From stdpp Require Import base list.
Import ListNotations.
Local Open Scope string_scope.
Local Open Scope Z_scope.
Local Open Scope list_scope.

(* ===================================================================== *)
(** * The packet tree of the asn1 package *)
(* ===================================================================== *)

Abbreviation byte := Byte.byte.

(** Modelled from the spec: the class of a packet (asn1.Class, of a
    package that is not among the sources): universal, application,
    context or private. *)
Inductive PacketClass : Type :=
| ClassUniversal
| ClassApplication
| ClassContext
| ClassPrivate.

(** Modelled from the spec: the encoding of a packet (asn1.Type, of the
    same package): primitive or constructed. *)
Inductive PacketType : Type :=
| TypePrimitive
| TypeConstructed.

(** Modelled from the spec: the tag constants of the asn1 package that the
    two files use, which are not among the sources; they are the universal
    tag numbers of ASN.1. No statement below depends on their values. *)
Definition TagBoolean : Z := 1.
Definition TagInteger : Z := 2.
Definition TagOctetString : Z := 4.
Definition TagEnumerated : Z := 10.
Definition TagSequence : Z := 16.
Definition TagSet : Z := 17.

(** Modelled from the spec: the raw or composite value of a packet, the
    field [Value interface{}]. A Go interface value carries its dynamic
    type, so [int64] and [uint64] are kept apart. *)
Inductive value : Type :=
| VNil
| VString (s : string)
| VBool (b : bool)
| VInt64 (n : Z)
| VUint64 (n : Z).

(** Modelled from the spec: asn1.Packet, which is not among the sources: a
    node of a rooted tree with class, encoding, tag number, value, ordered
    children and description. [Data] is the content buffer (a bytes.Buffer
    in Go), which DelRequest.encode writes to. Every packet the two files build is
    freshly created and is appended to its parent only after its own
    children are complete, so a tree of values stands for the tree of
    pointers; module [Imp] below checks this on a heap. *)
#[local] Unset Elimination Schemes.
Inductive Packet : Type := mkPacket {
  ClassType : PacketClass;
  TagType : PacketType;
  Tag : Z;
  Value : value;
  Data : list byte;
  Children : list Packet;
  Description : string
}.
#[local] Set Elimination Schemes.

(** The part of the asn1 package that is a matter of byte layout: the
    content octets of an integer, and the tag-length-value framing of a
    node around its content octets. *)
Class BerCodec : Type := {
  encodeInteger : Z -> list byte;
  frame : PacketClass -> PacketType -> Z -> list byte -> list byte
}.

Section PacketOps.
Context `{BerCodec}.

(** Modelled from the spec: Packet.Bytes of the asn1 package, which is not
    among the sources; the framing is self-describing and recursive, a
    node's bytes being its header followed by its content buffer. *)
Definition Bytes (p : Packet) : list byte :=
  frame (ClassType p) (TagType p) (Tag p) (Data p).

(** Modelled from the spec: asn1.Encode, which is not among the sources:
    [encode(class, encoding, tag, value, description) -> Packet], a node
    with no children and an empty content buffer. The two files call it
    with a nil value, and once (DelRequest.encode) with a string under an
    application tag, where the content is then written by the caller. *)
Definition Encode (c : PacketClass) (t : PacketType) (tag : Z) (v : value)
    (description : string) : Packet :=
  mkPacket c t tag v [] [] description.

(** Modelled from the spec: asn1.NewString, which is not among the
    sources: a node holding the string, its bytes as content. *)
Definition NewString (c : PacketClass) (t : PacketType) (tag : Z) (s : string)
    (description : string) : Packet :=
  mkPacket c t tag (VString s) (list_byte_of_string s) [] description.

(** The content octets NewInteger writes for an interface value. *)
Definition integerContent (v : value) : list byte :=
  match v with
  | VInt64 n | VUint64 n => encodeInteger n
  | VNil | VString _ | VBool _ => []
  end.

(** Modelled from the spec: asn1.NewInteger, which is not among the
    sources: a node holding the integer, its encoding as content. *)
Definition NewInteger (c : PacketClass) (t : PacketType) (tag : Z) (v : value)
    (description : string) : Packet :=
  mkPacket c t tag v (integerContent v) [] description.

(** Modelled from the spec: Packet.AppendChild, which is not among the
    sources: [appendChild(parent, child)] adds the child's bytes to the
    parent's content and the child to the end of the parent's children. *)
Definition AppendChild (p child : Packet) : Packet :=
  mkPacket (ClassType p) (TagType p) (Tag p) (Value p)
    (Data p ++ Bytes child) (Children p ++ [child]) (Description p).

(** request.Data.Write(b) *)
Definition DataWrite (p : Packet) (b : list byte) : Packet :=
  mkPacket (ClassType p) (TagType p) (Tag p) (Value p)
    (Data p ++ b) (Children p) (Description p).

End PacketOps.

(* ===================================================================== *)
(** * modify.go: the typed request and its encoder *)
(* ===================================================================== *)

(** Change operation choices *)
Definition AddAttribute : Z := 0.
Definition DeleteAttribute : Z := 1.
Definition ReplaceAttribute : Z := 2.

(** Modelled from the spec: the application tags of the two operations,
    constants of a file that is not among the sources: Delete=10/11 and
    Modify=6/7 for request/response, as in the grammar quoted at the head
    of each file ([APPLICATION 6], [APPLICATION 10]). *)
Definition ApplicationModifyRequest : Z := 6.
Definition ApplicationModifyResponse : Z := 7.
Definition ApplicationDelRequest : Z := 10.
Definition ApplicationDelResponse : Z := 11.

Record PartialAttribute : Type := mkPartialAttribute {
  Type_ : string;
  Vals : list string
}.

Record ModifyRequest : Type := mkModifyRequest {
  DN : string;
  AddAttributes : list PartialAttribute;
  DeleteAttributes : list PartialAttribute;
  ReplaceAttributes : list PartialAttribute
}.

Section Encoders.
Context `{BerCodec}.

Definition PartialAttribute_encode (p : PartialAttribute) : Packet :=
  let seq := Encode ClassUniversal TypeConstructed TagSequence VNil "PartialAttribute" in
  let seq := AppendChild seq
    (NewString ClassUniversal TypePrimitive TagOctetString (Type_ p) "Type") in
  let set := Encode ClassUniversal TypeConstructed TagSet VNil "AttributeValue" in
  let set := fold_left (fun set value =>
      AppendChild set
        (NewString ClassUniversal TypePrimitive TagOctetString value "Vals"))
    (Vals p) set in
  let seq := AppendChild seq set in
  seq.

(** ModifyRequest.Add, Delete and Replace: append to the respective list. *)
Definition ModifyRequest_Add (m : ModifyRequest) (attrType : string)
    (attrVals : list string) : ModifyRequest :=
  mkModifyRequest (DN m)
    (AddAttributes m ++ [mkPartialAttribute attrType attrVals])
    (DeleteAttributes m) (ReplaceAttributes m).

Definition ModifyRequest_Delete (m : ModifyRequest) (attrType : string)
    (attrVals : list string) : ModifyRequest :=
  mkModifyRequest (DN m) (AddAttributes m)
    (DeleteAttributes m ++ [mkPartialAttribute attrType attrVals])
    (ReplaceAttributes m).

Definition ModifyRequest_Replace (m : ModifyRequest) (attrType : string)
    (attrVals : list string) : ModifyRequest :=
  mkModifyRequest (DN m) (AddAttributes m) (DeleteAttributes m)
    (ReplaceAttributes m ++ [mkPartialAttribute attrType attrVals]).

Definition ModifyRequest_encode (m : ModifyRequest) : Packet :=
  let request := Encode ClassApplication TypeConstructed ApplicationModifyRequest VNil "Modify Request" in
  let request := AppendChild request
    (NewString ClassUniversal TypePrimitive TagOctetString (DN m) "DN") in
  let changes := Encode ClassUniversal TypeConstructed TagSequence VNil "Changes" in
  let changes := fold_left (fun changes attribute =>
      let change := Encode ClassUniversal TypeConstructed TagSequence VNil "Change" in
      let change := AppendChild change
        (NewInteger ClassUniversal TypePrimitive TagEnumerated (VUint64 AddAttribute) "Operation") in
      let change := AppendChild change (PartialAttribute_encode attribute) in
      AppendChild changes change)
    (AddAttributes m) changes in
  let changes := fold_left (fun changes attribute =>
      let change := Encode ClassUniversal TypeConstructed TagSequence VNil "Change" in
      let change := AppendChild change
        (NewInteger ClassUniversal TypePrimitive TagEnumerated (VUint64 DeleteAttribute) "Operation") in
      let change := AppendChild change (PartialAttribute_encode attribute) in
      AppendChild changes change)
    (DeleteAttributes m) changes in
  let changes := fold_left (fun changes attribute =>
      let change := Encode ClassUniversal TypeConstructed TagSequence VNil "Change" in
      let change := AppendChild change
        (NewInteger ClassUniversal TypePrimitive TagEnumerated (VUint64 ReplaceAttribute) "Operation") in
      let change := AppendChild change (PartialAttribute_encode attribute) in
      AppendChild changes change)
    (ReplaceAttributes m) changes in
  let request := AppendChild request changes in
  request.

(** NewModifyRequest creates a modify request for the given DN *)
Definition NewModifyRequest (dn : string) : ModifyRequest :=
  mkModifyRequest dn [] [] [].

End Encoders.

(* ===================================================================== *)
(** * The Delete file: the typed request and its encoder *)
(* ===================================================================== *)

(** DelRequest implements an LDAP deletion request. [Controls] is a Go
    slice: [None] is the nil slice, [Some l] a slice that is not nil
    (possibly of length 0). The control type belongs to a file that is not
    among the sources and is left open. *)
Record DelRequest (Control : Type) : Type := mkDelRequest {
  DelRequest_DN : string;
  DelRequest_Controls : option (list Control)
}.
Arguments mkDelRequest {Control} _ _.
Arguments DelRequest_DN {Control} _.
Arguments DelRequest_Controls {Control} _.

Section DelEncoder.
Context `{BerCodec} {Control : Type}.

Definition DelRequest_encode (d : DelRequest Control) : Packet :=
  let request := Encode ClassApplication TypePrimitive ApplicationDelRequest
                   (VString (DelRequest_DN d)) "Del Request" in
  let request := DataWrite request (list_byte_of_string (DelRequest_DN d)) in
  request.

(** NewDelRequest creates a delete request for the given DN and controls *)
Definition NewDelRequest (DN : string) (Controls : option (list Control))
    : DelRequest Control :=
  mkDelRequest DN Controls.

End DelEncoder.

(* ===================================================================== *)
(** * The imperative reading of the encoders *)
(* ===================================================================== *)

(** In Go a packet is a pointer to a mutable struct and [AppendChild]
    updates the parent in place. Here a heap is a list of cells, a pointer
    an index into it, and allocation adds a cell at the end. *)
Module Imp.

Abbreviation loc := nat.

Record Cell : Type := mkCell {
  cClassType : PacketClass;
  cTagType : PacketType;
  cTag : Z;
  cValue : value;
  cData : list byte;
  cChildren : list loc;
  cDescription : string
}.

Abbreviation Heap := (list Cell).

(** Heap-passing computations. *)
Definition HeapM (A : Type) : Type := Heap -> A * Heap.

Definition ret {A} (a : A) : HeapM A := fun h => (a, h).

Definition bind {A B} (m : HeapM A) (k : A -> HeapM B) : HeapM B :=
  fun h => let (a, h1) := m h in k a h1.

Declare Scope imp_scope.
Delimit Scope imp_scope with imp.
Notation "x <- m ;; k" := (bind m (fun x => k))
  (at level 100, m at next level, right associativity) : imp_scope.
Notation "m ;;; k" := (bind m (fun _ => k))
  (at level 100, right associativity) : imp_scope.
Local Open Scope imp_scope.

(** new(Packet): a fresh pointer. *)
Definition alloc (c : Cell) : HeapM loc :=
  fun h => (length h, h ++ [c]).

(** [for _, x := range l { body x }] *)
Fixpoint forRange {A} (l : list A) (body : A -> HeapM unit) : HeapM unit :=
  match l with
  | [] => ret tt
  | x :: l' => body x ;;; forRange l' body
  end.

Section Ops.
Context `{BerCodec}.

Definition CellBytes (c : Cell) : list byte :=
  frame (cClassType c) (cTagType c) (cTag c) (cData c).

Definition Encode (c : PacketClass) (t : PacketType) (tag : Z) (v : value)
    (description : string) : HeapM loc :=
  alloc (mkCell c t tag v [] [] description).

Definition NewString (c : PacketClass) (t : PacketType) (tag : Z) (s : string)
    (description : string) : HeapM loc :=
  alloc (mkCell c t tag (VString s) (list_byte_of_string s) [] description).

Definition NewInteger (c : PacketClass) (t : PacketType) (tag : Z) (v : value)
    (description : string) : HeapM loc :=
  alloc (mkCell c t tag v (integerContent v) [] description).

(** p.Data.Write(child.Bytes()); p.Children = append(p.Children, child).
    Pointers come from the constructors above and are never nil here; on
    an index that holds no cell the heap is left as it is. *)
Definition AppendChild (p child : loc) : HeapM unit :=
  fun h =>
    match h !! child with
    | Some cc =>
      (tt, alter (fun pc =>
             mkCell (cClassType pc) (cTagType pc) (cTag pc) (cValue pc)
               (cData pc ++ CellBytes cc) (cChildren pc ++ [child])
               (cDescription pc)) p h)
    | None => (tt, h)
    end.

(** p.Data.Write(b) *)
Definition DataWrite (p : loc) (b : list byte) : HeapM unit :=
  fun h =>
    (tt, alter (fun pc =>
           mkCell (cClassType pc) (cTagType pc) (cTag pc) (cValue pc)
             (cData pc ++ b) (cChildren pc) (cDescription pc)) p h).

Definition PartialAttribute_encode (p : PartialAttribute) : HeapM loc :=
  seq <- Encode ClassUniversal TypeConstructed TagSequence VNil "PartialAttribute" ;;
  ty <- NewString ClassUniversal TypePrimitive TagOctetString (Type_ p) "Type" ;;
  AppendChild seq ty ;;;
  set <- Encode ClassUniversal TypeConstructed TagSet VNil "AttributeValue" ;;
  forRange (Vals p) (fun value =>
    v <- NewString ClassUniversal TypePrimitive TagOctetString value "Vals" ;;
    AppendChild set v) ;;;
  AppendChild seq set ;;;
  ret seq.

Definition ModifyRequest_encode (m : ModifyRequest) : HeapM loc :=
  request <- Encode ClassApplication TypeConstructed ApplicationModifyRequest VNil "Modify Request" ;;
  dn <- NewString ClassUniversal TypePrimitive TagOctetString (DN m) "DN" ;;
  AppendChild request dn ;;;
  changes <- Encode ClassUniversal TypeConstructed TagSequence VNil "Changes" ;;
  forRange (AddAttributes m) (fun attribute =>
    change <- Encode ClassUniversal TypeConstructed TagSequence VNil "Change" ;;
    op <- NewInteger ClassUniversal TypePrimitive TagEnumerated (VUint64 AddAttribute) "Operation" ;;
    AppendChild change op ;;;
    a <- PartialAttribute_encode attribute ;;
    AppendChild change a ;;;
    AppendChild changes change) ;;;
  forRange (DeleteAttributes m) (fun attribute =>
    change <- Encode ClassUniversal TypeConstructed TagSequence VNil "Change" ;;
    op <- NewInteger ClassUniversal TypePrimitive TagEnumerated (VUint64 DeleteAttribute) "Operation" ;;
    AppendChild change op ;;;
    a <- PartialAttribute_encode attribute ;;
    AppendChild change a ;;;
    AppendChild changes change) ;;;
  forRange (ReplaceAttributes m) (fun attribute =>
    change <- Encode ClassUniversal TypeConstructed TagSequence VNil "Change" ;;
    op <- NewInteger ClassUniversal TypePrimitive TagEnumerated (VUint64 ReplaceAttribute) "Operation" ;;
    AppendChild change op ;;;
    a <- PartialAttribute_encode attribute ;;
    AppendChild change a ;;;
    AppendChild changes change) ;;;
  AppendChild request changes ;;;
  ret request.

Definition DelRequest_encode {Control : Type} (d : DelRequest Control) : HeapM loc :=
  request <- Encode ClassApplication TypePrimitive ApplicationDelRequest
               (VString (DelRequest_DN d)) "Del Request" ;;
  DataWrite request (list_byte_of_string (DelRequest_DN d)) ;;;
  ret request.

End Ops.

(** [tree_at lo h t l]: the cell at [l] and the cells below it spell the
    tree [t]; the cell lies at or above [lo] and children lie above their
    parent, so cells of one tree are not shared and there is no cycle. *)
Fixpoint tree_at (lo : nat) (h : Heap) (t : Packet) (l : loc) {struct t} : Prop :=
  match t with
  | mkPacket c ty tg v d ch desc =>
    (lo <= l)%nat /\
    exists cell, h !! l = Some cell /\
      cClassType cell = c /\ cTagType cell = ty /\ cTag cell = tg /\
      cValue cell = v /\ cData cell = d /\ cDescription cell = desc /\
      (fix trees_at (ts : list Packet) (ls : list loc) {struct ts} : Prop :=
         match ts, ls with
         | [], [] => True
         | t' :: ts', l' :: ls' => tree_at (S l) h t' l' /\ trees_at ts' ls'
         | _, _ => False
         end) ch (cChildren cell)
  end.

(** [unchanged_but p h h']: [h'] has every cell of [h], with the same
    content except possibly at [p]. *)
Definition unchanged_but (p : loc) (h h' : Heap) : Prop :=
  (length h <= length h')%nat /\
  forall l, (l < length h)%nat -> l <> p -> h' !! l = h !! l.

(** [builds m t]: from every heap, [m] returns a pointer to a fresh cell,
    the cells that existed are as they were, and the pointer holds the
    tree [t], made of fresh cells only. *)
Definition builds (m : HeapM loc) (t : Packet) : Prop :=
  forall h, exists h',
    m h = (length h, h') /\
    unchanged_but (length h) h h' /\
    tree_at (length h) h' t (length h).

(** [same_packet m]: whatever the heaps two invocations of [m] start
    from, the packets they return are equal as trees. *)
Definition same_packet (m : HeapM loc) : Prop :=
  forall (h1 h2 : Heap) (lo1 lo2 : nat) (t1 t2 : Packet),
    tree_at lo1 (snd (m h1)) t1 (fst (m h1)) ->
    tree_at lo2 (snd (m h2)) t2 (fst (m h2)) ->
    t1 = t2.

End Imp.

(* ===================================================================== *)
(** * The connection, as the two operations see it *)
(* ===================================================================== *)

(** Modelled from the spec: NewError and the Error struct of package ldap,
    which are not among the sources: an error of the taxonomy carries a
    result code and the underlying error with its text. The Go [error]
    values that occur here are [errors.New(text)] and the [*Error] built
    by [NewError(resultCode, err)]. *)
Inductive error : Type :=
| errors_New (text : string)
| NewError (resultCode : Z) (err : error).

(** Modelled from the spec: the response slot of a message context, a
    single-item delivery channel fed by the reader loop, which runs
    concurrently and is not among the sources. The type says what the one
    receive [<-msgCtx.responses] of an operation yields: a delivered
    value, the closed channel, or nothing at all, in which case the caller
    stays blocked. *)
Inductive chan (A : Type) : Type :=
| ChanValue (a : A)
| ChanClosed
| ChanNever.
Arguments ChanValue {A} a.
Arguments ChanClosed {A}.
Arguments ChanNever {A}.

(** Modelled from the spec: messageContext, which is not among the
    sources: the ID of the request and its response slot. *)
Record messageContext (R : Type) : Type := mkMessageContext {
  id : Z;
  responses : chan R
}.
Arguments mkMessageContext {R} _ _.
Arguments id {R} _.
Arguments responses {R} _.

(** The functions, types and constants of package ldap that the two files
    use and that are defined in files not among the sources. They are
    assumed to return; what they return is left open. A nil [*Packet] is
    [None]. [nextMessageID] yields an int64. [addLDAPDescriptions] updates
    the packet in place and so yields the packet after the update. The
    request pointers given to Del and Modify are taken not to be nil. *)
Class ConnEnv `{BerCodec} : Type := {
  ConnState : Type;
  PacketResponse : Type;
  Control : Type;
  ErrorNetwork : Z;
  nextMessageID : ConnState -> Z * ConnState;
  sendMessage : Packet -> ConnState ->
                (error + messageContext PacketResponse) * ConnState;
  finishMessage : messageContext PacketResponse -> ConnState -> ConnState;
  ReadPacket : PacketResponse -> option Packet * option error;
  addLDAPDescriptions : option Packet -> option Packet * option error;
  getLDAPResultCode : Packet -> Z * string;
  encodeControls : list Control -> Packet
}.

(** Arguments of the formatted print calls. *)
Inductive arg : Type :=
| ArgInt (n : Z)
| ArgPacket (p : option Packet).

(** How a call ends: it returns its [error] result ([None] is nil), it
    panics, or it never returns (blocked on the response channel). *)
Inductive Fault : Type :=
| NilPointerDereference
| IndexOutOfRange (index len : nat).

Inductive Outcome : Type :=
| Returned (err : option error)
| Panicked (f : Fault)
| Blocked.

Section Operations.
Context `{ConnEnv}.

(** The calls an operation makes on the connection and on the log, in
    order. *)
Inductive Event : Type :=
| EvNextMessageID (messageID : Z)
| EvDebugPrintPacket (p : Packet)
| EvSendMessage (p : Packet)
| EvFinishMessage (msgCtx : messageContext PacketResponse)
| EvDebugPrintf (format : string) (args : list arg)
| EvPrintPacket (p : option Packet)
| EvLogPrintf (format : string) (args : list arg).

(** The receiver [l *Conn]: its [Debug] flag, the rest of its state, and
    the calls made so far. *)
Record Conn : Type := mkConn {
  Debug : bool;
  state : ConnState;
  trace : list Event
}.

Definition M (A : Type) : Type := Conn -> A * Conn.

Definition ret {A} (a : A) : M A := fun l => (a, l).

Definition bind {A B} (m : M A) (k : A -> M B) : M B :=
  fun l => let (a, l1) := m l in k a l1.

Declare Scope conn_scope.
Delimit Scope conn_scope with conn.
Notation "x <- m ;; k" := (bind m (fun x => k))
  (at level 100, m at next level, right associativity) : conn_scope.
Notation "m ;;; k" := (bind m (fun _ => k))
  (at level 100, right associativity) : conn_scope.
Local Open Scope conn_scope.

Definition emit (e : Event) : M unit :=
  fun l => (tt, mkConn (Debug l) (state l) (trace l ++ [e])).

Definition l_Debug : M bool := fun l => (Debug l, l).

Definition l_nextMessageID : M Z :=
  fun l =>
    let (messageID, st) := nextMessageID (state l) in
    (messageID, mkConn (Debug l) st (trace l ++ [EvNextMessageID messageID])).

Definition l_sendMessage (packet : Packet)
    : M (error + messageContext PacketResponse) :=
  fun l =>
    let (r, st) := sendMessage packet (state l) in
    (r, mkConn (Debug l) st (trace l ++ [EvSendMessage packet])).

Definition l_finishMessage (msgCtx : messageContext PacketResponse) : M unit :=
  fun l =>
    (tt, mkConn (Debug l) (finishMessage msgCtx (state l))
           (trace l ++ [EvFinishMessage msgCtx])).

(** [defer f]: [f] runs when the surrounding function returns or panics;
    it does not run while the function is blocked. *)
Definition defer (deferred : M unit) (body : M Outcome) : M Outcome :=
  o <- body ;;
  match o with
  | Blocked => ret Blocked
  | Returned _ | Panicked _ => deferred ;;; ret o
  end.

(** Del executes the given delete request *)
Definition Del (delRequest : DelRequest Control) : M Outcome :=
  let packet := Encode ClassUniversal TypeConstructed TagSequence VNil "LDAP Request" in
  messageID <- l_nextMessageID ;;
  let packet := AppendChild packet
    (NewInteger ClassUniversal TypePrimitive TagInteger (VInt64 messageID) "MessageID") in
  let packet := AppendChild packet (DelRequest_encode delRequest) in
  let packet :=
    match DelRequest_Controls delRequest with
    | Some controls => AppendChild packet (encodeControls controls)
    | None => packet
    end in
  emit (EvDebugPrintPacket packet) ;;;
  sent <- l_sendMessage packet ;;
  match sent with
  | inl err => ret (Returned (Some err))
  | inr msgCtx =>
    defer (l_finishMessage msgCtx) (
      emit (EvDebugPrintf "%d: waiting for response" [ArgInt (id msgCtx)]) ;;;
      match responses msgCtx with
      | ChanNever => ret Blocked
      | ChanClosed =>
        ret (Returned (Some (NewError ErrorNetwork
                               (errors_New "ldap: response channel closed"))))
      | ChanValue packetResponse =>
        let (packet, err) := ReadPacket packetResponse in
        emit (EvDebugPrintf "%d: got response %p"
                [ArgInt (id msgCtx); ArgPacket packet]) ;;;
        match err with
        | Some err => ret (Returned (Some err))
        | None =>
          debug <- l_Debug ;;
          described <-
            (if debug then
               let (packet, err) := addLDAPDescriptions packet in
               match err with
               | Some err => ret (inl err)
               | None => emit (EvPrintPacket packet) ;;; ret (inr packet)
               end
             else ret (inr packet)) ;;
          match described with
          | inl err => ret (Returned (Some err))
          | inr None => ret (Panicked NilPointerDereference)
          | inr (Some packet) =>
            match Children packet !! 1%nat with
            | None =>
              ret (Panicked (IndexOutOfRange 1 (length (Children packet))))
            | Some child =>
              result <-
                (if Tag child =? ApplicationDelResponse then
                   let (resultCode, resultDescription) := getLDAPResultCode packet in
                   if negb (resultCode =? 0) then
                     ret (Some (NewError resultCode (errors_New resultDescription)))
                   else ret None
                 else
                   emit (EvLogPrintf "Unexpected Response: %d" [ArgInt (Tag child)]) ;;;
                   ret None) ;;
              match result with
              | Some err => ret (Returned (Some err))
              | None =>
                emit (EvDebugPrintf "%d: returning" [ArgInt (id msgCtx)]) ;;;
                ret (Returned None)
              end
            end
          end
        end
      end)
  end.

(** Modify performs the ModifyRequest *)
Definition Modify (modifyRequest : ModifyRequest) : M Outcome :=
  let packet := Encode ClassUniversal TypeConstructed TagSequence VNil "LDAP Request" in
  messageID <- l_nextMessageID ;;
  let packet := AppendChild packet
    (NewInteger ClassUniversal TypePrimitive TagInteger (VInt64 messageID) "MessageID") in
  let packet := AppendChild packet (ModifyRequest_encode modifyRequest) in
  emit (EvDebugPrintPacket packet) ;;;
  sent <- l_sendMessage packet ;;
  match sent with
  | inl err => ret (Returned (Some err))
  | inr msgCtx =>
    defer (l_finishMessage msgCtx) (
      emit (EvDebugPrintf "%d: waiting for response" [ArgInt (id msgCtx)]) ;;;
      match responses msgCtx with
      | ChanNever => ret Blocked
      | ChanClosed =>
        ret (Returned (Some (NewError ErrorNetwork
                               (errors_New "ldap: response channel closed"))))
      | ChanValue packetResponse =>
        let (packet, err) := ReadPacket packetResponse in
        emit (EvDebugPrintf "%d: got response %p"
                [ArgInt (id msgCtx); ArgPacket packet]) ;;;
        match err with
        | Some err => ret (Returned (Some err))
        | None =>
          debug <- l_Debug ;;
          described <-
            (if debug then
               let (packet, err) := addLDAPDescriptions packet in
               match err with
               | Some err => ret (inl err)
               | None => emit (EvPrintPacket packet) ;;; ret (inr packet)
               end
             else ret (inr packet)) ;;
          match described with
          | inl err => ret (Returned (Some err))
          | inr None => ret (Panicked NilPointerDereference)
          | inr (Some packet) =>
            match Children packet !! 1%nat with
            | None =>
              ret (Panicked (IndexOutOfRange 1 (length (Children packet))))
            | Some child =>
              result <-
                (if Tag child =? ApplicationModifyResponse then
                   let (resultCode, resultDescription) := getLDAPResultCode packet in
                   if negb (resultCode =? 0) then
                     ret (Some (NewError resultCode (errors_New resultDescription)))
                   else ret None
                 else
                   emit (EvLogPrintf "Unexpected Response: %d" [ArgInt (Tag child)]) ;;;
                   ret None) ;;
              match result with
              | Some err => ret (Returned (Some err))
              | None =>
                emit (EvDebugPrintf "%d: returning" [ArgInt (id msgCtx)]) ;;;
                ret (Returned None)
              end
            end
          end
        end
      end)
  end.

End Operations.

(* ===================================================================== *)
(** * A stub connection *)
(* ===================================================================== *)

(** One concrete choice for everything left open above: a codec, and a
    connection whose transport answers every request with a reply fixed in
    advance. The scenarios of the specification run on it. *)
Module Stub.

Definition byte_of_Z (z : Z) : byte :=
  match Byte.of_N (Z.to_N (z mod 256)) with
  | Some b => b
  | None => Byte.x00
  end.

(** The [n] low-order octets of [z], most significant first. *)
Fixpoint be_octets (n : nat) (z : Z) : list byte :=
  match n with
  | O => []
  | S n' => be_octets n' (z / 256) ++ [byte_of_Z z]
  end.

(** Number of octets of the shortest two's-complement form of [z]. *)
Definition int_octets (z : Z) : nat :=
  let m := if z <? 0 then - z - 1 else z in
  let bits := if m =? 0 then 0 else Z.log2 m + 1 in
  Z.to_nat (bits / 8 + 1).

Definition class_bits (c : PacketClass) : Z :=
  match c with
  | ClassUniversal => 0
  | ClassApplication => 64
  | ClassContext => 128
  | ClassPrivate => 192
  end.

Definition type_bit (t : PacketType) : Z :=
  match t with
  | TypePrimitive => 0
  | TypeConstructed => 32
  end.

(** Length octets: short form below 128, long form from there on. *)
Definition length_octets (n : Z) : list byte :=
  if n <? 128 then [byte_of_Z n]
  else
    let k := int_octets n in
    byte_of_Z (128 + Z.of_nat k) :: be_octets k n.

(** Modelled from the spec: the BER framing of the asn1 package, which is
    not among the sources: identifier octet, length octets, content; an
    integer is written in its shortest form. Tags below 31 only. *)
#[export] Instance codec : BerCodec := {|
  encodeInteger z := be_octets (int_octets z) z;
  frame c t tag content :=
    byte_of_Z (class_bits c + type_bit t + tag)
    :: length_octets (Z.of_nat (length content)) ++ content
|}.

(** Modelled from the spec: Control, which is not among the sources:
    {object identifier, criticality flag, opaque value}. *)
Record Control : Type := mkControl {
  ControlType : string;
  Criticality : bool;
  ControlValue : string
}.

(** Modelled from the spec: the encoding of one control, which is not
    among the sources: a SEQUENCE of {controlType, criticality BOOLEAN
    DEFAULT FALSE, controlValue}. *)
Definition encodeControl (c : Control) : Packet :=
  let packet := Encode ClassUniversal TypeConstructed TagSequence VNil "Control" in
  let packet := AppendChild packet
    (NewString ClassUniversal TypePrimitive TagOctetString (ControlType c) "Control Type") in
  let packet :=
    if Criticality c then
      AppendChild packet
        (mkPacket ClassUniversal TypePrimitive TagBoolean (VBool true)
           [Byte.xff] [] "Criticality")
    else packet in
  AppendChild packet
    (NewString ClassUniversal TypePrimitive TagOctetString (ControlValue c) "Control Value").

(** Modelled from the spec: encodeControls, which is not among the
    sources: the controls in order under a context tag 0. *)
Definition encodeControls (controls : list Control) : Packet :=
  fold_left (fun packet control => AppendChild packet (encodeControl control))
    controls
    (Encode ClassContext TypeConstructed 0 VNil "Controls").

(** Modelled from the spec: PacketResponse and its ReadPacket, which are
    not among the sources: what the reader delivers is a decoded packet or
    the error met while decoding. *)
Record PacketResponse : Type := mkPacketResponse {
  prPacket : option Packet;
  prError : option error
}.

(** Modelled from the spec: PacketResponse.ReadPacket, which is not among
    the sources: the packet and the error of the response. *)
Definition ReadPacket (pr : PacketResponse) : option Packet * option error :=
  (prPacket pr, prError pr).

(** The stub connection: the last message ID handed out, the IDs with a
    registered response slot, the envelopes written to the transport, and
    what the transport will deliver for the next request. *)
Record ConnState : Type := mkConnState {
  lastID : Z;
  registered : list Z;
  wire : list Packet;
  reply : chan PacketResponse
}.

(** Modelled from the spec: nextMessageID, which is not among the sources:
    IDs increase by one per request. *)
Definition nextMessageID (c : ConnState) : Z * ConnState :=
  (lastID c + 1, mkConnState (lastID c + 1) (registered c) (wire c) (reply c)).

(** Modelled from the spec: sendMessage, which is not among the sources:
    registers a response slot keyed by the ID and writes the envelope. *)
Definition sendMessage (packet : Packet) (c : ConnState)
    : (error + messageContext PacketResponse) * ConnState :=
  (inr (mkMessageContext (lastID c) (reply c)),
   mkConnState (lastID c) (lastID c :: registered c) (wire c ++ [packet]) (reply c)).

(** Modelled from the spec: finishMessage, which is not among the sources:
    removes the registry entry of the message. *)
Definition finishMessage (msgCtx : messageContext PacketResponse) (c : ConnState)
    : ConnState :=
  mkConnState (lastID c) (filter (fun i => i <> id msgCtx) (registered c))
    (wire c) (reply c).

(** Modelled from the spec: the result code of a NetworkError, a constant
    of a file that is not among the sources; a value outside the result
    codes of the protocol. *)
Definition ErrorNetwork : Z := 200.

Definition value_int (v : value) : Z :=
  match v with
  | VInt64 n | VUint64 n => n
  | VNil | VString _ | VBool _ => 0
  end.

Definition value_string (v : value) : string :=
  match v with
  | VString s => s
  | VNil | VBool _ | VInt64 _ | VUint64 _ => ""
  end.

(** Modelled from the spec: getLDAPResultCode, which is not among the
    sources: from the second child of the response, the result code (first
    grandchild, an integer) and the diagnostic message (third grandchild,
    after the matched DN); a generic failure where that is not possible. *)
Definition getLDAPResultCode (packet : Packet) : Z * string :=
  match Children packet !! 1%nat with
  | Some response =>
    match Children response with
    | code :: _ :: diagnostic :: _ =>
      (value_int (Value code), value_string (Value diagnostic))
    | _ => (ErrorNetwork, "Invalid packet format")
    end
  | None => (ErrorNetwork, "Invalid packet format")
  end.

#[export] Instance env : ConnEnv :=
  Build_ConnEnv codec ConnState PacketResponse Control ErrorNetwork
    nextMessageID sendMessage finishMessage ReadPacket
    (fun packet => (packet, None)) getLDAPResultCode encodeControls.

End Stub.

(* ===================================================================== *)
(** * Notions used in the statements *)
(* ===================================================================== *)

(** The shape of a change, of a PartialAttribute and of the list of
    changes, following the grammar of RFC 4511 quoted in modify.go. *)
Section Shapes.
Context `{BerCodec}.

(** A universal constructed node with the given tag. *)
Definition constructed (tag : Z) (p : Packet) : Prop :=
  ClassType p = ClassUniversal /\ TagType p = TypeConstructed /\ Tag p = tag.

(** A universal primitive OCTET STRING holding [s]. *)
Definition octet_string (s : string) (p : Packet) : Prop :=
  ClassType p = ClassUniversal /\ TagType p = TypePrimitive /\
  Tag p = TagOctetString /\ Value p = VString s /\
  Data p = list_byte_of_string s /\ Children p = [].

(** A universal primitive ENUMERATED holding [n]. *)
Definition enumerated (n : Z) (p : Packet) : Prop :=
  ClassType p = ClassUniversal /\ TagType p = TypePrimitive /\
  Tag p = TagEnumerated /\ Value p = VUint64 n /\ Children p = [].

(** PartialAttribute ::= SEQUENCE { type, vals SET OF value } *)
Definition partial_attribute (a : PartialAttribute) (p : Packet) : Prop :=
  constructed TagSequence p /\
  exists ty set, Children p = [ty; set] /\
    octet_string (Type_ a) ty /\
    constructed TagSet set /\
    Forall2 octet_string (Vals a) (Children set).

(** change ::= SEQUENCE { operation ENUMERATED, modification PartialAttribute } *)
Definition change (oa : Z * PartialAttribute) (p : Packet) : Prop :=
  constructed TagSequence p /\
  exists op modification, Children p = [op; modification] /\
    enumerated (fst oa) op /\
    modification = PartialAttribute_encode (snd oa) /\
    partial_attribute (snd oa) modification.

(** The changes a ModifyRequest asks for: the additions (operation 0),
    then the deletions (operation 1), then the replacements (operation 2),
    each list in the order given by the caller. *)
Definition changes_of (m : ModifyRequest) : list (Z * PartialAttribute) :=
  map (pair 0) (AddAttributes m) ++
  map (pair 1) (DeleteAttributes m) ++
  map (pair 2) (ReplaceAttributes m).

(** The change packet for an operation code and an attribute. *)
Definition change_packet (op : Z) (a : PartialAttribute) : Packet :=
  AppendChild
    (AppendChild
       (Encode ClassUniversal TypeConstructed TagSequence VNil "Change")
       (NewInteger ClassUniversal TypePrimitive TagEnumerated (VUint64 op) "Operation"))
    (PartialAttribute_encode a).

(** The three loops of ModifyRequest.encode, one after the other. *)
Definition changes_packet (m : ModifyRequest) : Packet :=
  fold_left (fun acc a => AppendChild acc (change_packet ReplaceAttribute a))
    (ReplaceAttributes m)
    (fold_left (fun acc a => AppendChild acc (change_packet DeleteAttribute a))
       (DeleteAttributes m)
       (fold_left (fun acc a => AppendChild acc (change_packet AddAttribute a))
          (AddAttributes m)
          (Encode ClassUniversal TypeConstructed TagSequence VNil "Changes"))).

(** The content buffer of a constructed node is the concatenation of the
    bytes of its children. *)
Definition content_of_children (p : Packet) : Prop :=
  Data p = concat (map Bytes (Children p)).

End Shapes.

(** The two operations under one name, and the stages of a call that the
    statements below speak of. *)
Section Stages.
Context `{ConnEnv}.

Inductive Request : Type :=
| ReqDel (delRequest : DelRequest Control)
| ReqModify (modifyRequest : ModifyRequest).

Definition perform (r : Request) : M Outcome :=
  match r with
  | ReqDel delRequest => Del delRequest
  | ReqModify modifyRequest => Modify modifyRequest
  end.

Definition operationPacket (r : Request) : Packet :=
  match r with
  | ReqDel delRequest => DelRequest_encode delRequest
  | ReqModify modifyRequest => ModifyRequest_encode modifyRequest
  end.

Definition requestDN (r : Request) : string :=
  match r with
  | ReqDel delRequest => DelRequest_DN delRequest
  | ReqModify modifyRequest => DN modifyRequest
  end.

Definition expectedResponse (r : Request) : Z :=
  match r with
  | ReqDel _ => ApplicationDelResponse
  | ReqModify _ => ApplicationModifyResponse
  end.

(** The controls element of the envelope, if the request has one. *)
Definition controlsElement (r : Request) : list Packet :=
  match r with
  | ReqDel delRequest =>
    match DelRequest_Controls delRequest with
    | Some controls => [encodeControls controls]
    | None => []
    end
  | ReqModify _ => []
  end.

(** The wire format of a request, in the words of the specification:
    SEQUENCE { messageID INTEGER, protocolOp, controls OPTIONAL }. *)
Definition envelope (r : Request) (messageID : Z) : Packet :=
  let children :=
    [NewInteger ClassUniversal TypePrimitive TagInteger (VInt64 messageID) "MessageID";
     operationPacket r] ++ controlsElement r in
  mkPacket ClassUniversal TypeConstructed TagSequence VNil
    (concat (map Bytes children)) children "LDAP Request".

(** What sendMessage answers when the operation sends its envelope. *)
Definition sent (r : Request) (l : Conn)
    : error + messageContext PacketResponse :=
  let (messageID, st) := nextMessageID (state l) in
  fst (sendMessage (envelope r messageID) st).

(** The packet after the description pass of debug mode. *)
Definition described (debug : bool) (packet : option Packet)
    : option Packet * option error :=
  if debug then addLDAPDescriptions packet else (packet, None).

(** The response packet whose tag the operation examines, if the call
    gets that far: the request was sent, a response was delivered, it was
    read without error, and so was it described in debug mode. *)
Definition response (r : Request) (l : Conn) : option Packet :=
  match sent r l with
  | inr msgCtx =>
    match responses msgCtx with
    | ChanValue packetResponse =>
      match ReadPacket packetResponse with
      | (packet, None) =>
        match described (Debug l) packet with
        | (Some packet, None) => Some packet
        | _ => None
        end
      | _ => None
      end
    | _ => None
    end
  | inl _ => None
  end.

(** The result of the operation for a decoded result code and text. *)
Definition resultError (result : Z * string) : option error :=
  if fst result =? 0 then None
  else Some (NewError (fst result) (errors_New (snd result))).

(** The events a call has added to the trace of the connection. *)
Definition events (r : Request) (l : Conn) : list Event :=
  drop (length (trace l)) (trace (snd (perform r l))).

(** The state of the connection once the envelope is sent. *)
Definition sentState (r : Request) (l : Conn) : ConnState :=
  let (messageID, st) := nextMessageID (state l) in
  snd (sendMessage (envelope r messageID) st).

(** The calls every operation makes up to and including sendMessage. *)
Definition sendEvents (r : Request) (l : Conn) : list Event :=
  let (messageID, _) := nextMessageID (state l) in
  [EvNextMessageID messageID;
   EvDebugPrintPacket (envelope r messageID);
   EvSendMessage (envelope r messageID)].

(** The course of Del and Modify after the deferred call is registered:
    the same statements in both, up to the expected response tag. *)
Definition await (expected : Z) (msgCtx : messageContext PacketResponse)
    : M Outcome :=
  bind (emit (EvDebugPrintf "%d: waiting for response" [ArgInt (id msgCtx)]))
    (fun _ =>
     match responses msgCtx with
     | ChanNever => ret Blocked
     | ChanClosed =>
       ret (Returned (Some (NewError ErrorNetwork
                              (errors_New "ldap: response channel closed"))))
     | ChanValue packetResponse =>
       let (packet, err) := ReadPacket packetResponse in
       bind (emit (EvDebugPrintf "%d: got response %p"
                     [ArgInt (id msgCtx); ArgPacket packet]))
         (fun _ =>
          match err with
          | Some err => ret (Returned (Some err))
          | None =>
            bind l_Debug (fun debug =>
            bind (if debug then
                    let (packet, err) := addLDAPDescriptions packet in
                    match err with
                    | Some err => ret (inl err)
                    | None =>
                      bind (emit (EvPrintPacket packet)) (fun _ => ret (inr packet))
                    end
                  else ret (inr packet))
              (fun described =>
               match described with
               | inl err => ret (Returned (Some err))
               | inr None => ret (Panicked NilPointerDereference)
               | inr (Some packet) =>
                 match Children packet !! 1%nat with
                 | None =>
                   ret (Panicked (IndexOutOfRange 1 (length (Children packet))))
                 | Some child =>
                   bind (if Tag child =? expected then
                           let (resultCode, resultDescription) :=
                             getLDAPResultCode packet in
                           if negb (resultCode =? 0) then
                             ret (Some (NewError resultCode
                                          (errors_New resultDescription)))
                           else ret None
                         else
                           bind (emit (EvLogPrintf "Unexpected Response: %d"
                                         [ArgInt (Tag child)]))
                             (fun _ => ret None))
                     (fun result =>
                      match result with
                      | Some err => ret (Returned (Some err))
                      | None =>
                        bind (emit (EvDebugPrintf "%d: returning"
                                      [ArgInt (id msgCtx)]))
                          (fun _ => ret (Returned None))
                      end)
                 end
               end))
          end)
     end).

(** The outcome of the tag check and of what follows it. *)
Definition checked (expected : Z) (packet : Packet) : Outcome :=
  match Children packet !! 1%nat with
  | None => Panicked (IndexOutOfRange 1 (length (Children packet)))
  | Some child =>
    if Tag child =? expected then Returned (resultError (getLDAPResultCode packet))
    else Returned None
  end.

(** The connection once the envelope is sent. *)
Definition sentConn (r : Request) (l : Conn) : Conn :=
  mkConn (Debug l) (sentState r l) (trace l ++ sendEvents r l).

Definition is_finish (e : Event) : bool :=
  match e with
  | EvFinishMessage _ => true
  | _ => false
  end.

Definition is_send (e : Event) : bool :=
  match e with
  | EvSendMessage _ => true
  | _ => false
  end.

End Stages.

(** The text of an error, under the result codes wrapped around it. *)
Fixpoint errText (e : error) : string :=
  match e with
  | errors_New text => text
  | NewError _ err => errText err
  end.

(** Responses and connections of the scenarios. *)
Module Scenario.
Import Stub.

(** A response envelope: message ID 1, then an application-tagged result
    with result code, matched DN and diagnostic message. *)
Definition resultPacket (tag code : Z) (diagnostic : string) : Packet :=
  let packet := Encode ClassUniversal TypeConstructed TagSequence VNil "LDAP Response" in
  let packet := AppendChild packet
    (NewInteger ClassUniversal TypePrimitive TagInteger (VInt64 1) "MessageID") in
  let result := Encode ClassApplication TypeConstructed tag VNil "Response" in
  let result := AppendChild result
    (NewInteger ClassUniversal TypePrimitive TagEnumerated (VInt64 code) "resultCode") in
  let result := AppendChild result
    (NewString ClassUniversal TypePrimitive TagOctetString "" "matchedDN") in
  let result := AppendChild result
    (NewString ClassUniversal TypePrimitive TagOctetString diagnostic "diagnosticMessage") in
  AppendChild packet result.

(** A response envelope that holds the message ID and nothing else. *)
Definition shortPacket : Packet :=
  let packet := Encode ClassUniversal TypeConstructed TagSequence VNil "LDAP Response" in
  AppendChild packet
    (NewInteger ClassUniversal TypePrimitive TagInteger (VInt64 1) "MessageID").

(** The reply of scenario 1 and that of scenario 2, to a Delete. *)
Definition success : Packet := resultPacket ApplicationDelResponse 0 "".

Definition noSuchObject : Packet :=
  resultPacket ApplicationDelResponse 32 "no such object".

(** The same result under the tag of a Modify response. *)
Definition mismatched : Packet :=
  resultPacket ApplicationModifyResponse 32 "no such object".

(** A response under the tag of a Modify response that holds no result. *)
Definition bare : Packet :=
  let packet := Encode ClassUniversal TypeConstructed TagSequence VNil "LDAP Response" in
  let packet := AppendChild packet
    (NewInteger ClassUniversal TypePrimitive TagInteger (VInt64 1) "MessageID") in
  AppendChild packet
    (Encode ClassApplication TypeConstructed ApplicationModifyResponse VNil "Response").

(** A fresh connection whose transport will yield [reply]. *)
Definition conn (reply : chan PacketResponse) : Conn :=
  mkConn false (mkConnState 0 [] [] reply) [].

Definition replies (packet : Packet) : Conn :=
  conn (ChanValue (mkPacketResponse (Some packet) None)).

Definition delete : Request :=
  ReqDel (mkDelRequest "uid=test,dc=example,dc=com" None).

Definition modify : Request :=
  ReqModify (mkModifyRequest "uid=test,dc=example,dc=com"
               [mkPartialAttribute "mail" ["a@x.com"]] [] []).

(** Requests with an empty DN. *)
Definition deleteNoDN : Request := ReqDel (mkDelRequest "" None).

Definition modifyNoDN : Request := ReqModify (NewModifyRequest "").

(** The message context the stub hands out for the first request. *)
Definition firstContext (reply : chan PacketResponse)
    : messageContext PacketResponse :=
  mkMessageContext 1 reply.

End Scenario.

(* ===================================================================== *)
(** * The whole course of a call, and further notions *)
(* ===================================================================== *)

Section WholeCourse.
Context `{ConnEnv}.

(** The outcome of awaiting the response and the events it adds, read off
    the branches of Del and Modify one by one. *)
Definition awaitCourse (expected : Z) (debug : bool)
    (msgCtx : messageContext PacketResponse) : Outcome * list Event :=
  let waiting := EvDebugPrintf "%d: waiting for response" [ArgInt (id msgCtx)] in
  let returning := EvDebugPrintf "%d: returning" [ArgInt (id msgCtx)] in
  match responses msgCtx with
  | ChanNever => (Blocked, [waiting])
  | ChanClosed =>
    (Returned (Some (NewError ErrorNetwork
                       (errors_New "ldap: response channel closed"))),
     [waiting])
  | ChanValue packetResponse =>
    let got := EvDebugPrintf "%d: got response %p"
                 [ArgInt (id msgCtx); ArgPacket (fst (ReadPacket packetResponse))] in
    match snd (ReadPacket packetResponse) with
    | Some err => (Returned (Some err), [waiting; got])
    | None =>
      match described debug (fst (ReadPacket packetResponse)) with
      | (_, Some err) => (Returned (Some err), [waiting; got])
      | (packet, None) =>
        let printed := if debug then [EvPrintPacket packet] else [] in
        match packet with
        | None => (Panicked NilPointerDereference, [waiting; got] ++ printed)
        | Some packet =>
          match Children packet !! 1%nat with
          | None =>
            (Panicked (IndexOutOfRange 1 (length (Children packet))),
             [waiting; got] ++ printed)
          | Some child =>
            if Tag child =? expected then
              match resultError (getLDAPResultCode packet) with
              | Some err => (Returned (Some err), [waiting; got] ++ printed)
              | None => (Returned None, [waiting; got] ++ printed ++ [returning])
              end
            else
              (Returned None,
               [waiting; got] ++ printed ++
               [EvLogPrintf "Unexpected Response: %d" [ArgInt (Tag child)];
                returning])
          end
        end
      end
    end
  end.

(** The outcome of a call and the events it adds. *)
Definition wholeCourse (r : Request) (l : Conn) : Outcome * list Event :=
  match sent r l with
  | inl err => (Returned (Some err), sendEvents r l)
  | inr msgCtx =>
    let (o, es) := awaitCourse (expectedResponse r) (Debug l) msgCtx in
    (o, sendEvents r l ++ es ++
        match o with
        | Blocked => []
        | Returned _ | Panicked _ => [EvFinishMessage msgCtx]
        end)
  end.





End WholeCourse.

Section Framing.
Context `{BerCodec}.

(** [well_framed p]: a primitive node has no children; the content of a
    constructed node is the bytes of its children, one after the other,
    and the children are well framed in turn. *)
Fixpoint well_framed (p : Packet) : Prop :=
  match p with
  | mkPacket c ty tg v d ch desc =>
    match ty with
    | TypePrimitive => ch = []
    | TypeConstructed =>
      d = concat (map Bytes ch) /\
      (fix all_framed (ps : list Packet) : Prop :=
         match ps with
         | [] => True
         | q :: ps' => well_framed q /\ all_framed ps'
         end) ch
    end
  end.

(** The changes of an encoded ModifyRequest: the children of its second
    child. *)
Definition changesOf (request : Packet) : list Packet :=
  match Children request !! 1%nat with
  | Some changes => Children changes
  | None => []
  end.

(** The attributes of a list of changes that go with operation [op]. *)
Definition selected (op : Z) (l : list (Z * PartialAttribute))
    : list PartialAttribute :=
  map snd (List.filter (fun oa => fst oa =? op) l).

End Framing.

(** Further responses and connections. *)
Module Cases.
Import Stub.

(** A response that carries the error met while reading it. *)
Definition unreadable : PacketResponse :=
  mkPacketResponse None (Some (errors_New "unexpected EOF")).


(** Modelled from the spec: sendMessage, which is not among the sources,
    on a connection that has shut down: new registrations fail
    immediately. *)
Definition refusingSend (packet : Packet) (c : ConnState)
    : (error + messageContext PacketResponse) * ConnState :=
  (inl (NewError ErrorNetwork (errors_New "ldap: connection closed")), c).

(** The stub connection after shutdown. *)
Definition closedEnv : ConnEnv :=
  Build_ConnEnv codec ConnState PacketResponse Control ErrorNetwork
    nextMessageID refusingSend finishMessage ReadPacket
    (fun packet => (packet, None)) getLDAPResultCode encodeControls.

(** Modelled from the spec: addLDAPDescriptions, which is not among the
    sources: a packet without the children to describe cannot be
    described. *)
Definition describe (packet : option Packet) : option Packet * option error :=
  match packet with
  | Some p =>
    if (length (Children p) <? 2)%nat then
      (packet, Some (errors_New "ldap: cannot process packet to add descriptions"))
    else (packet, None)
  | None =>
    (None, Some (errors_New "ldap: cannot process packet to add descriptions"))
  end.

(** The stub connection with that description pass. *)
Definition describingEnv : ConnEnv :=
  Build_ConnEnv codec ConnState PacketResponse Control ErrorNetwork
    nextMessageID sendMessage finishMessage ReadPacket
    describe getLDAPResultCode encodeControls.

Definition closedConn : @Conn codec closedEnv :=
  @mkConn codec closedEnv false (mkConnState 0 [] [] ChanNever) [].

Definition closedDelete : @Request codec closedEnv :=
  @ReqDel codec closedEnv (mkDelRequest "uid=test,dc=example,dc=com" None).

Definition describingConn (reply : chan PacketResponse)
    : @Conn codec describingEnv :=
  @mkConn codec describingEnv true (mkConnState 0 [] [] reply) [].

Definition describingDelete : @Request codec describingEnv :=
  @ReqDel codec describingEnv (mkDelRequest "uid=test,dc=example,dc=com" None).

(** A request with one attribute in each list. *)
Definition threeChanges : ModifyRequest :=
  mkModifyRequest "uid=test,dc=example,dc=com"
    [mkPartialAttribute "mail" ["a@x.com"]]
    [mkPartialAttribute "fax" []]
    [mkPartialAttribute "sn" ["Test"; "Test"]].

End Cases.

(* ===================================================================== *)
(** * Packets and encoders *)
(* ===================================================================== *)

Section EncoderFacts.
Context `{BerCodec}.

(** A loop that appends one child per element keeps the header of the
    node and adds the children in the order of the list. *)
Lemma fold_AppendChild_header {A} (f : A -> Packet) (l : list A) (p : Packet) :
  let q := fold_left (fun acc x => AppendChild acc (f x)) l p in
  ClassType q = ClassType p /\ TagType q = TagType p /\ Tag q = Tag p /\
  Value q = Value p /\ Description q = Description p.
Proof.
  revert p. induction l as [|x l IH]; intros p; simpl.
  - repeat split.
  - specialize (IH (AppendChild p (f x))). simpl in IH. exact IH.
Qed.

Lemma fold_AppendChild_Children {A} (f : A -> Packet) (l : list A) (p : Packet) :
  Children (fold_left (fun acc x => AppendChild acc (f x)) l p)
  = Children p ++ map f l.
Proof.
  revert p. induction l as [|x l IH]; intros p; simpl.
  - now rewrite app_nil_r.
  - rewrite IH. simpl. now rewrite <- app_assoc.
Qed.

Lemma NewString_octet_string (s description : string) :
  octet_string s
    (NewString ClassUniversal TypePrimitive TagOctetString s description).
Proof. repeat split. Qed.

Lemma PartialAttribute_encode_shape (a : PartialAttribute) :
  partial_attribute a (PartialAttribute_encode a).
Proof.
  unfold partial_attribute, PartialAttribute_encode.
  split; [repeat split|].
  eexists _, _. split; [reflexivity|].
  split; [apply NewString_octet_string|].
  split.
  - destruct (fold_AppendChild_header
      (fun v => NewString ClassUniversal TypePrimitive TagOctetString v "Vals")
      (Vals a)
      (Encode ClassUniversal TypeConstructed TagSet VNil "AttributeValue"))
      as (Hc & Ht & Hg & _).
    repeat split; assumption.
  - rewrite fold_AppendChild_Children. simpl.
    induction (Vals a); constructor; auto using NewString_octet_string.
Qed.

(** The change the loops of ModifyRequest.encode build for one attribute. *)
Lemma change_shape (op : Z) (a : PartialAttribute) :
  change (op, a)
    (AppendChild
       (AppendChild
          (Encode ClassUniversal TypeConstructed TagSequence VNil "Change")
          (NewInteger ClassUniversal TypePrimitive TagEnumerated (VUint64 op) "Operation"))
       (PartialAttribute_encode a)).
Proof.
  split; [repeat split|].
  eexists _, _. split; [reflexivity|].
  split; [repeat split|].
  split; [reflexivity|apply PartialAttribute_encode_shape].
Qed.

End EncoderFacts.

Section ModifyGrammar.
Context `{BerCodec}.

Lemma ModifyRequest_encode_unfold (m : ModifyRequest) :
  ModifyRequest_encode m =
  AppendChild
    (AppendChild
       (Encode ClassApplication TypeConstructed ApplicationModifyRequest VNil "Modify Request")
       (NewString ClassUniversal TypePrimitive TagOctetString (DN m) "DN"))
    (changes_packet m).
Proof. reflexivity. Qed.

Lemma changes_packet_Children (m : ModifyRequest) :
  Children (changes_packet m) =
  map (fun oa => change_packet (fst oa) (snd oa)) (changes_of m).
Proof.
  unfold changes_packet, changes_of.
  rewrite !fold_AppendChild_Children. simpl.
  rewrite !map_app, !map_map, <- app_assoc. reflexivity.
Qed.

Lemma changes_packet_constructed (m : ModifyRequest) :
  constructed TagSequence (changes_packet m).
Proof.
  unfold changes_packet, constructed.
  repeat match goal with
  | |- context [fold_left (fun acc a => AppendChild acc (?f a)) ?l ?p] =>
    let Hh := fresh in
    destruct (fold_AppendChild_header f l p) as (-> & -> & -> & _)
  end.
  repeat split.
Qed.

(** C5. ModifyRequest.encode yields an application-tagged constructed
    node (tag 6) with exactly two children: the DN as an octet string,
    then one SEQUENCE of changes. The changes are those of the request in
    the order Add (operation 0), Delete (1), Replace (2), each list in the
    caller's order, and each change is a SEQUENCE of the enumerated
    operation and the encoded PartialAttribute. In particular a request
    made with NewModifyRequest and one call of Add for "mail" with the one
    value "a@x.com" has exactly one change, with operation 0, attribute
    type "mail" and one value. *)
Theorem ModifyRequest_encode_grammar :
  (forall m : ModifyRequest,
     let request := ModifyRequest_encode m in
     ClassType request = ClassApplication /\
     TagType request = TypeConstructed /\
     Tag request = ApplicationModifyRequest /\
     exists dn changes,
       Children request = [dn; changes] /\
       octet_string (DN m) dn /\
       constructed TagSequence changes /\
       Forall2 change (changes_of m) (Children changes)) /\
  (forall dn : string,
     let m := ModifyRequest_Add (NewModifyRequest dn) "mail" ["a@x.com"] in
     exists dnPacket changes c op modification ty set v,
       Children (ModifyRequest_encode m) = [dnPacket; changes] /\
       Children changes = [c] /\
       Children c = [op; modification] /\
       enumerated AddAttribute op /\
       Children modification = [ty; set] /\
       octet_string "mail" ty /\
       Children set = [v] /\
       octet_string "a@x.com" v).
Proof.
  split.
  - intros m request. subst request.
    rewrite ModifyRequest_encode_unfold.
    split; [reflexivity|]. split; [reflexivity|]. split; [reflexivity|].
    eexists _, _. split; [reflexivity|].
    split; [apply NewString_octet_string|].
    split; [apply changes_packet_constructed|].
    rewrite changes_packet_Children.
    induction (changes_of m) as [|[op a] l IH]; simpl; constructor; auto.
    apply change_shape.
  - intros dn m.
    do 8 eexists.
    repeat split.
Qed.

End ModifyGrammar.

(* ===================================================================== *)
(** * The imperative encoders build the trees of the functional ones *)
(* ===================================================================== *)

(** Induction on packets, with the hypothesis for every child. *)
Lemma Packet_ind (P : Packet -> Prop) :
  (forall c ty tg v d ch desc,
     Forall P ch -> P (mkPacket c ty tg v d ch desc)) ->
  forall t, P t.
Proof.
  intros step. fix IH 1. intros [c ty tg v d ch desc].
  apply step. induction ch as [|t ch IHch]; constructor.
  - apply IH.
  - exact IHch.
Qed.

Section ImpFacts.
Context `{BerCodec}.

Lemma tree_at_unfold (lo : nat) (h : Imp.Heap) (t : Packet) (l : Imp.loc) :
  Imp.tree_at lo h t l <->
  (lo <= l)%nat /\
  exists cell, h !! l = Some cell /\
    Imp.cClassType cell = ClassType t /\ Imp.cTagType cell = TagType t /\
    Imp.cTag cell = Tag t /\ Imp.cValue cell = Value t /\ Imp.cData cell = Data t /\
    Imp.cDescription cell = Description t /\
    Forall2 (Imp.tree_at (S l) h) (Children t) (Imp.cChildren cell).
Proof.
  destruct t as [c ty tg v d ch desc]. simpl.
  assert (Hch : forall ls,
    (fix trees_at (ts : list Packet) (ls : list Imp.loc) {struct ts} : Prop :=
       match ts, ls with
       | [], [] => True
       | t' :: ts', l' :: ls' => Imp.tree_at (S l) h t' l' /\ trees_at ts' ls'
       | _, _ => False
       end) ch ls <-> Forall2 (Imp.tree_at (S l) h) ch ls).
  { induction ch as [|t ch IHch]; intros [|l' ls]; split; intros Hf;
      try (now constructor); try (now inversion Hf); try contradiction.
    - destruct Hf as [Ht Hr]. constructor; [exact Ht|now apply IHch].
    - inversion Hf; subst. split; [assumption|now apply IHch]. }
  split; intros (Hlo & cell & Hl & Hc & Ht & Hg & Hv & Hd & Hs & Hk);
    (split; [exact Hlo|]); exists cell; repeat (split; [assumption|]);
    now apply Hch.
Qed.

(** A tree is read from the cells between its lower bound and the end of
    the heap only. *)
Lemma tree_at_preserved (h h' : Imp.Heap) (t : Packet) :
  forall (lo : nat) (l : Imp.loc),
    (forall l', (lo <= l')%nat -> (l' < length h)%nat -> h' !! l' = h !! l') ->
    Imp.tree_at lo h t l -> Imp.tree_at lo h' t l.
Proof.
  induction t as [c ty tg v d ch desc IH] using Packet_ind.
  intros lo l Hsame. rewrite !tree_at_unfold. simpl.
  intros (Hlo & cell & Hl & Hc & Ht & Hg & Hv & Hd & Hs & Hk).
  split; [exact Hlo|]. exists cell.
  split.
  { rewrite Hsame; [exact Hl|exact Hlo|]. now apply lookup_lt_Some in Hl. }
  repeat (split; [assumption|]).
  clear Hl. revert IH. induction Hk as [|t l' ts ls Ht' Hk IHk]; intros IH.
  - constructor.
  - inversion IH; subst. constructor.
    + match goal with Hx : forall lo l, _ -> Imp.tree_at lo h t l -> _ |- _ =>
        apply Hx; [|exact Ht'] end.
      intros l'' Hle Hlt. apply Hsame; [lia|exact Hlt].
    + apply IHk. assumption.
Qed.

Lemma tree_at_weaken (lo lo' : nat) (h : Imp.Heap) (t : Packet) (l : Imp.loc) :
  (lo' <= lo)%nat -> Imp.tree_at lo h t l -> Imp.tree_at lo' h t l.
Proof.
  intros Hle. rewrite !tree_at_unfold. intros (Hlo & Hrest).
  split; [lia|exact Hrest].
Qed.

Lemma tree_at_allocated (lo : nat) (h : Imp.Heap) (t : Packet) (l : Imp.loc) :
  Imp.tree_at lo h t l -> (l < length h)%nat.
Proof.
  rewrite tree_at_unfold. intros (_ & cell & Hl & _).
  now apply lookup_lt_Some in Hl.
Qed.

Lemma unchanged_but_refl (p : Imp.loc) (h : Imp.Heap) : Imp.unchanged_but p h h.
Proof. split; [lia|reflexivity]. Qed.

Lemma unchanged_but_alloc (p : Imp.loc) (h : Imp.Heap) (c : Imp.Cell) :
  Imp.unchanged_but p h (h ++ [c]).
Proof.
  split.
  - rewrite length_app. lia.
  - intros l Hl _. now apply lookup_app_l.
Qed.

Lemma unchanged_but_alter (p : Imp.loc) (h : Imp.Heap) (f : Imp.Cell -> Imp.Cell) :
  Imp.unchanged_but p h (alter f p h).
Proof.
  split.
  - rewrite length_alter. lia.
  - intros l _ Hne. apply list_lookup_alter_ne. congruence.
Qed.

(** Changes at [p], followed by changes at [q], where [q] is [p] again
    or a cell that did not exist at the start. *)
Lemma unchanged_but_trans (p q : Imp.loc) (h h1 h2 : Imp.Heap) :
  Imp.unchanged_but p h h1 -> Imp.unchanged_but q h1 h2 ->
  q = p \/ (length h <= q)%nat ->
  Imp.unchanged_but p h h2.
Proof.
  intros [Hlen1 H1] [Hlen2 H2] Hq. split; [lia|].
  intros l Hl Hne. rewrite H2; [now apply H1|lia|].
  destruct Hq; [congruence|lia].
Qed.

Lemma tree_at_unchanged (p : Imp.loc) (lo : nat) (h h' : Imp.Heap) (t : Packet) (l : Imp.loc) :
  Imp.unchanged_but p h h' -> (p < lo)%nat \/ (length h <= p)%nat ->
  Imp.tree_at lo h t l -> Imp.tree_at lo h' t l.
Proof.
  intros [_ Hsame] Hp. apply tree_at_preserved.
  intros l' Hle Hlt. apply Hsame; [exact Hlt|lia].
Qed.

(** A cell that was just allocated is a tree without children. *)
Lemma tree_at_alloc (h : Imp.Heap) (c : PacketClass) (ty : PacketType) (tg : Z)
    (v : value) (d : list byte) (desc : string) :
  Imp.tree_at (length h) (h ++ [Imp.mkCell c ty tg v d [] desc])
    (mkPacket c ty tg v d [] desc) (length h).
Proof.
  rewrite tree_at_unfold. split; [lia|].
  eexists. split.
  - rewrite lookup_app_r by lia. rewrite Nat.sub_diag. reflexivity.
  - repeat split. constructor.
Qed.

(** AppendChild on the heap is AppendChild on the trees, and changes the
    parent cell only. *)
Lemma AppendChild_tree (h : Imp.Heap) (p c : Imp.loc) (P C : Packet) :
  Imp.tree_at p h P p -> Imp.tree_at (S p) h C c ->
  exists h',
    Imp.AppendChild p c h = (tt, h') /\
    Imp.tree_at p h' (AppendChild P C) p /\
    Imp.unchanged_but p h h'.
Proof.
  intros HP HC.
  pose proof HP as HP'. pose proof HC as HC'.
  rewrite tree_at_unfold in HP', HC'.
  destruct HP' as (_ & pc & Hp & Hc1 & Ht1 & Hg1 & Hv1 & Hd1 & Hs1 & Hk1).
  destruct HC' as (Hlo & cc & Hc & Hc2 & Ht2 & Hg2 & Hv2 & Hd2 & Hs2 & Hk2).
  unfold Imp.AppendChild. rewrite Hc.
  eexists. split; [reflexivity|].
  split; [|apply unchanged_but_alter].
  rewrite tree_at_unfold. split; [lia|].
  eexists. split.
  { rewrite list_lookup_alter_eq, Hp. reflexivity. }
  simpl. repeat (split; [assumption|]).
  split.
  { unfold Imp.CellBytes, Bytes. congruence. }
  split; [assumption|].
  apply Forall2_app.
  - eapply Forall2_impl; [exact Hk1|].
    intros t l Ht. eapply tree_at_unchanged; [apply unchanged_but_alter| |exact Ht].
    left. lia.
  - constructor; [|constructor].
    eapply tree_at_unchanged; [apply unchanged_but_alter| |exact HC].
    left. lia.
Qed.

End ImpFacts.

Section ImpEncoders.
Context `{BerCodec}.

Lemma Encode_builds c ty tg v desc :
  Imp.builds (Imp.Encode c ty tg v desc) (Encode c ty tg v desc).
Proof.
  intros h. eexists. split; [reflexivity|].
  split; [apply unchanged_but_alloc|apply tree_at_alloc].
Qed.

Lemma NewString_builds c ty tg s desc :
  Imp.builds (Imp.NewString c ty tg s desc) (NewString c ty tg s desc).
Proof.
  intros h. eexists. split; [reflexivity|].
  split; [apply unchanged_but_alloc|apply tree_at_alloc].
Qed.

Lemma NewInteger_builds c ty tg v desc :
  Imp.builds (Imp.NewInteger c ty tg v desc) (NewInteger c ty tg v desc).
Proof.
  intros h. eexists. split; [reflexivity|].
  split; [apply unchanged_but_alloc|apply tree_at_alloc].
Qed.

(** Build a child, then append it to the node at [p]. *)
Lemma build_append (m : Imp.HeapM Imp.loc) (C P : Packet) (p : Imp.loc)
    (h : Imp.Heap) :
  Imp.builds m C -> Imp.tree_at p h P p ->
  exists c h1 h',
    m h = (c, h1) /\ Imp.AppendChild p c h1 = (tt, h') /\
    Imp.tree_at p h' (AppendChild P C) p /\
    Imp.unchanged_but p h h'.
Proof.
  intros Hm HP. destruct (Hm h) as (h1 & E1 & U1 & T1).
  pose proof (tree_at_allocated _ _ _ _ HP) as Hp.
  assert (HP1 : Imp.tree_at p h1 P p).
  { eapply tree_at_unchanged; [exact U1|right; lia|exact HP]. }
  assert (HC1 : Imp.tree_at (S p) h1 C (length h)).
  { eapply tree_at_weaken; [|exact T1]. lia. }
  destruct (AppendChild_tree h1 p (length h) P C HP1 HC1) as (h' & E2 & T2 & U2).
  exists (length h), h1, h'.
  split; [exact E1|]. split; [exact E2|]. split; [exact T2|].
  eapply unchanged_but_trans; [|exact U2|left; reflexivity].
  destruct U1 as [Hlen Hsame]. split; [exact Hlen|].
  intros l Hl _. apply Hsame; [exact Hl|lia].
Qed.

(** A loop whose body appends one child to the node at [p]. *)
Lemma forRange_append {A} (body : A -> Imp.HeapM unit) (f : A -> Packet)
    (p : Imp.loc) :
  (forall x h P, Imp.tree_at p h P p ->
     exists h', body x h = (tt, h') /\
       Imp.tree_at p h' (AppendChild P (f x)) p /\
       Imp.unchanged_but p h h') ->
  forall l h P, Imp.tree_at p h P p ->
    exists h', Imp.forRange l body h = (tt, h') /\
      Imp.tree_at p h' (fold_left (fun acc x => AppendChild acc (f x)) l P) p /\
      Imp.unchanged_but p h h'.
Proof.
  intros Hbody l. induction l as [|x l IH]; intros h P HP; simpl.
  - exists h. split; [reflexivity|]. split; [exact HP|apply unchanged_but_refl].
  - destruct (Hbody x h P HP) as (h1 & E1 & T1 & U1).
    destruct (IH h1 _ T1) as (h2 & E2 & T2 & U2).
    exists h2. unfold Imp.bind. rewrite E1, E2.
    split; [reflexivity|]. split; [exact T2|].
    eapply unchanged_but_trans; [exact U1|exact U2|left; reflexivity].
Qed.

End ImpEncoders.

Section ImpBuilds.
Context `{BerCodec}.

(** The length facts carried by the hypotheses on heaps. *)
Ltac heap_lengths :=
  repeat match goal with
  | U : Imp.unchanged_but _ _ _ |- _ =>
    let L := fresh "L" in pose proof (proj1 U) as L; revert U
  | T : Imp.tree_at _ _ _ _ |- _ =>
    let L := fresh "L" in pose proof (tree_at_allocated _ _ _ _ T) as L; revert T
  end; intros.

(** One more step in a chain of changes, all at fresh cells or at [p]. *)
Ltac then_unchanged U :=
  eapply unchanged_but_trans; [|exact U|first [left; reflexivity|right; lia]].

Lemma PartialAttribute_encode_builds (a : PartialAttribute) :
  Imp.builds (Imp.PartialAttribute_encode a) (PartialAttribute_encode a).
Proof.
  intros h. unfold Imp.PartialAttribute_encode, Imp.bind.
  destruct (Encode_builds ClassUniversal TypeConstructed TagSequence VNil
              "PartialAttribute" h) as (h1 & E1 & U1 & T1).
  rewrite E1.
  destruct (build_append _ _ _ _ h1
              (NewString_builds ClassUniversal TypePrimitive TagOctetString
                 (Type_ a) "Type") T1) as (ty & h2 & h3 & E2 & E3 & T3 & U3).
  rewrite E2, E3.
  destruct (Encode_builds ClassUniversal TypeConstructed TagSet VNil
              "AttributeValue" h3) as (h4 & E4 & U4 & T4).
  rewrite E4.
  destruct (forRange_append
              (fun value => Imp.bind
                 (Imp.NewString ClassUniversal TypePrimitive TagOctetString value "Vals")
                 (fun v => Imp.AppendChild (length h3) v))
              (fun value => NewString ClassUniversal TypePrimitive TagOctetString value "Vals")
              (length h3)) with (l := Vals a) (h := h4)
              (P := Encode ClassUniversal TypeConstructed TagSet VNil "AttributeValue")
    as (h5 & E5 & T5 & U5).
  { intros x h0 P HP.
    destruct (build_append _ _ _ _ h0
                (NewString_builds ClassUniversal TypePrimitive TagOctetString x "Vals")
                HP) as (v & h0' & h0'' & Ea & Eb & Tc & Ud).
    exists h0''. unfold Imp.bind. rewrite Ea, Eb. auto. }
  { exact T4. }
  unfold Imp.bind in E5. rewrite E5.
  heap_lengths.
  assert (T3' : Imp.tree_at (length h) h5
                  (AppendChild
                     (Encode ClassUniversal TypeConstructed TagSequence VNil "PartialAttribute")
                     (NewString ClassUniversal TypePrimitive TagOctetString (Type_ a) "Type"))
                  (length h)).
  { eapply tree_at_unchanged; [|right; reflexivity|exact T3].
    then_unchanged U5. exact U4. }
  assert (T5' : Imp.tree_at (S (length h)) h5
                  (fold_left (fun acc value => AppendChild acc
                     (NewString ClassUniversal TypePrimitive TagOctetString value "Vals"))
                     (Vals a)
                     (Encode ClassUniversal TypeConstructed TagSet VNil "AttributeValue"))
                  (length h3)).
  { eapply tree_at_weaken; [|exact T5]. lia. }
  destruct (AppendChild_tree h5 _ _ _ _ T3' T5') as (h6 & E6 & T6 & U6).
  rewrite E6. exists h6. split; [reflexivity|].
  split; [|exact T6].
  heap_lengths.
  then_unchanged U6. then_unchanged U5. then_unchanged U4. then_unchanged U3.
  exact U1.
Qed.

(** The body of the three loops of ModifyRequest.encode, for the
    operation code [op]. *)
Lemma change_loop_body (op : Z) (changes : Imp.loc) (attribute : PartialAttribute)
    (h : Imp.Heap) (P : Packet) :
  Imp.tree_at changes h P changes ->
  exists h',
    Imp.bind (Imp.Encode ClassUniversal TypeConstructed TagSequence VNil "Change")
      (fun change =>
       Imp.bind (Imp.NewInteger ClassUniversal TypePrimitive TagEnumerated
                   (VUint64 op) "Operation")
         (fun op =>
          Imp.bind (Imp.AppendChild change op)
            (fun _ =>
             Imp.bind (Imp.PartialAttribute_encode attribute)
               (fun a =>
                Imp.bind (Imp.AppendChild change a)
                  (fun _ => Imp.AppendChild changes change))))) h
    = (tt, h') /\
    Imp.tree_at changes h' (AppendChild P (change_packet op attribute)) changes /\
    Imp.unchanged_but changes h h'.
Proof.
  intros HP. unfold Imp.bind.
  destruct (Encode_builds ClassUniversal TypeConstructed TagSequence VNil
              "Change" h) as (h1 & E1 & U1 & T1).
  rewrite E1.
  destruct (build_append _ _ _ _ h1
              (NewInteger_builds ClassUniversal TypePrimitive TagEnumerated
                 (VUint64 op) "Operation") T1)
    as (o & h2 & h3 & E2 & E3 & T3 & U3).
  rewrite E2, E3.
  destruct (build_append _ _ _ _ h3
              (PartialAttribute_encode_builds attribute) T3)
    as (a & h4 & h5 & E4 & E5 & T5 & U5).
  rewrite E4, E5.
  heap_lengths.
  assert (U05 : Imp.unchanged_but (length h) h h5).
  { then_unchanged U5. then_unchanged U3. exact U1. }
  assert (HP5 : Imp.tree_at changes h5 P changes).
  { eapply tree_at_unchanged; [exact U05|right; reflexivity|exact HP]. }
  assert (T5' : Imp.tree_at (S changes) h5 (change_packet op attribute) (length h)).
  { eapply tree_at_weaken; [|exact T5]. lia. }
  destruct (AppendChild_tree h5 _ _ _ _ HP5 T5') as (h6 & E6 & T6 & U6).
  exists h6. split; [exact E6|]. split; [exact T6|].
  then_unchanged U6. then_unchanged U5. then_unchanged U3. then_unchanged U1.
  apply unchanged_but_refl.
Qed.

Lemma ModifyRequest_encode_builds (m : ModifyRequest) :
  Imp.builds (Imp.ModifyRequest_encode m) (ModifyRequest_encode m).
Proof.
  intros h. rewrite ModifyRequest_encode_unfold.
  unfold Imp.ModifyRequest_encode.
  unfold Imp.bind at 1.
  destruct (Encode_builds ClassApplication TypeConstructed
              ApplicationModifyRequest VNil "Modify Request" h)
    as (h1 & E1 & U1 & T1).
  rewrite E1. unfold Imp.bind at 1. unfold Imp.bind at 1.
  destruct (build_append _ _ _ _ h1
              (NewString_builds ClassUniversal TypePrimitive TagOctetString
                 (DN m) "DN") T1) as (dn & h2 & h3 & E2 & E3 & T3 & U3).
  rewrite E2, E3. unfold Imp.bind at 1.
  destruct (Encode_builds ClassUniversal TypeConstructed TagSequence VNil
              "Changes" h3) as (h4 & E4 & U4 & T4).
  rewrite E4.
  match goal with |- context [Imp.forRange (AddAttributes m) ?body] =>
    destruct (forRange_append body (change_packet AddAttribute) (length h3)
                (fun x h0 P => change_loop_body AddAttribute (length h3) x h0 P)
                (AddAttributes m) h4 _ T4) as (h5 & E5 & T5 & U5)
  end.
  match goal with |- context [Imp.forRange (DeleteAttributes m) ?body] =>
    destruct (forRange_append body (change_packet DeleteAttribute) (length h3)
                (fun x h0 P => change_loop_body DeleteAttribute (length h3) x h0 P)
                (DeleteAttributes m) h5 _ T5) as (h6 & E6 & T6 & U6)
  end.
  match goal with |- context [Imp.forRange (ReplaceAttributes m) ?body] =>
    destruct (forRange_append body (change_packet ReplaceAttribute) (length h3)
                (fun x h0 P => change_loop_body ReplaceAttribute (length h3) x h0 P)
                (ReplaceAttributes m) h6 _ T6) as (h7 & E7 & T7 & U7)
  end.
  unfold Imp.bind at 1. rewrite E5.
  unfold Imp.bind at 1. rewrite E6.
  unfold Imp.bind at 1. rewrite E7.
  unfold Imp.bind at 1.
  heap_lengths.
  assert (U37 : Imp.unchanged_but (length h3) h3 h7).
  { then_unchanged U7. then_unchanged U6. then_unchanged U5. exact U4. }
  assert (T3' : Imp.tree_at (length h) h7
                  (AppendChild
                     (Encode ClassApplication TypeConstructed
                        ApplicationModifyRequest VNil "Modify Request")
                     (NewString ClassUniversal TypePrimitive TagOctetString (DN m) "DN"))
                  (length h)).
  { eapply tree_at_unchanged; [exact U37|right; reflexivity|exact T3]. }
  assert (T7' : Imp.tree_at (S (length h)) h7 (changes_packet m) (length h3)).
  { eapply tree_at_weaken; [|exact T7]. lia. }
  destruct (AppendChild_tree h7 _ _ _ _ T3' T7') as (h8 & E8 & T8 & U8).
  rewrite E8. exists h8. split; [reflexivity|]. split; [|exact T8].
  heap_lengths.
  then_unchanged U8. then_unchanged U7. then_unchanged U6. then_unchanged U5.
  then_unchanged U4. then_unchanged U3. exact U1.
Qed.

Lemma DataWrite_tree (h : Imp.Heap) (p : Imp.loc) (P : Packet) (b : list byte) :
  Imp.tree_at p h P p ->
  Imp.tree_at p (snd (Imp.DataWrite p b h)) (DataWrite P b) p /\
  Imp.unchanged_but p h (snd (Imp.DataWrite p b h)).
Proof.
  intros HP. split; [|apply unchanged_but_alter].
  rewrite tree_at_unfold in HP.
  destruct HP as (_ & pc & Hp & Hc1 & Ht1 & Hg1 & Hv1 & Hd1 & Hs1 & Hk1).
  rewrite tree_at_unfold. split; [lia|].
  eexists. split.
  { simpl. rewrite list_lookup_alter_eq, Hp. reflexivity. }
  simpl. repeat (split; [assumption|]).
  split; [congruence|]. split; [assumption|].
  eapply Forall2_impl; [exact Hk1|].
  intros t l Ht. eapply tree_at_unchanged; [apply unchanged_but_alter| |exact Ht].
  left. lia.
Qed.

Lemma DelRequest_encode_builds {Control : Type} (d : DelRequest Control) :
  Imp.builds (Imp.DelRequest_encode d) (DelRequest_encode d).
Proof.
  intros h. unfold Imp.DelRequest_encode, Imp.bind.
  destruct (Encode_builds ClassApplication TypePrimitive ApplicationDelRequest
              (VString (DelRequest_DN d)) "Del Request" h)
    as (h1 & E1 & U1 & T1).
  rewrite E1.
  destruct (DataWrite_tree h1 (length h) _
              (list_byte_of_string (DelRequest_DN d)) T1) as (T2 & U2).
  destruct (Imp.DataWrite (length h) (list_byte_of_string (DelRequest_DN d)) h1)
    as [[] h2] eqn:E2.
  simpl in T2, U2. exists h2. split; [reflexivity|]. split; [|exact T2].
  then_unchanged U2. exact U1.
Qed.

(** The tree held by a pointer is determined by the heap. *)
Lemma tree_at_functional (h : Imp.Heap) (t : Packet) :
  forall (t' : Packet) (lo lo' : nat) (l : Imp.loc),
    Imp.tree_at lo h t l -> Imp.tree_at lo' h t' l -> t = t'.
Proof.
  induction t as [c ty tg v d ch desc IH] using Packet_ind.
  intros [c' ty' tg' v' d' ch' desc'] lo lo' l.
  rewrite !tree_at_unfold. simpl.
  intros (_ & cell & Hl & <- & <- & <- & <- & <- & <- & Hk).
  intros (_ & cell' & Hl' & <- & <- & <- & <- & <- & <- & Hk').
  assert (cell' = cell) by congruence. subst cell'.
  f_equal. clear Hl Hl'.
  revert ch' Hk' IH.
  induction Hk as [|t l' ts ls Ht Hk IHk]; intros ch' Hk' IH.
  - now inversion Hk'.
  - inversion Hk'; subst. inversion IH; subst. f_equal.
    + match goal with Hx : forall t' lo lo' l, _ |- _ =>
        eapply Hx; eassumption end.
    + now apply IHk.
Qed.

End ImpBuilds.

(* ===================================================================== *)
(** * The course of Del and Modify *)
(* ===================================================================== *)

Section Course.
Context `{ConnEnv}.

(** The envelope Del and Modify build with AppendChild is the envelope of
    the wire format. *)
Lemma Del_envelope (delRequest : DelRequest Control) (messageID : Z) :
  match DelRequest_Controls delRequest with
  | Some controls =>
    AppendChild
      (AppendChild
         (AppendChild
            (Encode ClassUniversal TypeConstructed TagSequence VNil "LDAP Request")
            (NewInteger ClassUniversal TypePrimitive TagInteger (VInt64 messageID) "MessageID"))
         (DelRequest_encode delRequest))
      (encodeControls controls)
  | None =>
    AppendChild
      (AppendChild
         (Encode ClassUniversal TypeConstructed TagSequence VNil "LDAP Request")
         (NewInteger ClassUniversal TypePrimitive TagInteger (VInt64 messageID) "MessageID"))
      (DelRequest_encode delRequest)
  end = envelope (ReqDel delRequest) messageID.
Proof.
  unfold envelope, controlsElement, AppendChild.
  destruct (DelRequest_Controls delRequest); simpl;
    rewrite ?app_nil_r, <- ?app_assoc; reflexivity.
Qed.

Lemma Modify_envelope (modifyRequest : ModifyRequest) (messageID : Z) :
  AppendChild
    (AppendChild
       (Encode ClassUniversal TypeConstructed TagSequence VNil "LDAP Request")
       (NewInteger ClassUniversal TypePrimitive TagInteger (VInt64 messageID) "MessageID"))
    (ModifyRequest_encode modifyRequest)
  = envelope (ReqModify modifyRequest) messageID.
Proof.
  unfold envelope, controlsElement, AppendChild. simpl.
  rewrite ?app_nil_r. reflexivity.
Qed.

(** Both operations: next message ID, envelope, sendMessage; on an error
    of sendMessage return it; otherwise defer finishMessage and await. *)
Lemma perform_course (r : Request) (l : Conn) :
  perform r l =
  match sent r l with
  | inl err => (Returned (Some err), sentConn r l)
  | inr msgCtx =>
    defer (l_finishMessage msgCtx) (await (expectedResponse r) msgCtx)
      (sentConn r l)
  end.
Proof.
  unfold sent, sentConn, sentState, sendEvents.
  destruct r as [d|m]; unfold perform.
  - unfold Del, bind, l_nextMessageID, emit, l_sendMessage.
    destruct (nextMessageID (state l)) as [messageID st] eqn:E. simpl.
    pose proof (Del_envelope d messageID) as Henv.
    destruct (DelRequest_Controls d); rewrite Henv;
      destruct (sendMessage (envelope (ReqDel d) messageID) st) as [[err|msgCtx] st'];
      simpl; rewrite <- ?app_assoc; reflexivity.
  - unfold Modify, bind, l_nextMessageID, emit, l_sendMessage.
    destruct (nextMessageID (state l)) as [messageID st] eqn:E. simpl.
    rewrite Modify_envelope.
    destruct (sendMessage (envelope (ReqModify m) messageID) st) as [[err|msgCtx] st'];
      simpl; rewrite <- ?app_assoc; reflexivity.
Qed.

End Course.

Section Await.
Context `{ConnEnv}.

(** Case analysis along the branches of [await]. *)
Ltac branches :=
  repeat (simpl;
    match goal with
    | |- context [responses ?c] => destruct (responses c) eqn:?
    | |- context [ReadPacket ?p] => destruct (ReadPacket p) as [? [?|]] eqn:?
    | |- context [Debug ?l] => is_var l; destruct (Debug l) eqn:?
    | |- context [addLDAPDescriptions ?p] =>
      destruct (addLDAPDescriptions p) as [[?|] [?|]] eqn:?
    | |- context [Children ?p !! 1%nat] => destruct (Children p !! 1%nat) eqn:?
    | |- context [getLDAPResultCode ?p] => destruct (getLDAPResultCode p) eqn:?
    | |- context [?a =? ?b] => destruct (a =? b) eqn:?
    | |- context [match ?x with _ => _ end] => is_var x; destruct x
    end).

(** Awaiting the response adds events to the trace and leaves the rest of
    the connection as it is; none of the events is a call of sendMessage
    or of finishMessage. *)
Lemma await_trace (expected : Z) (msgCtx : messageContext PacketResponse)
    (l : Conn) :
  exists es,
    snd (await expected msgCtx l) = mkConn (Debug l) (state l) (trace l ++ es) /\
    forallb (fun e => negb (is_finish e || is_send e)) es = true.
Proof.
  unfold await, bind, emit, ret, l_Debug.
  branches; simpl; eexists; (split; [rewrite <- ?app_assoc; reflexivity|]);
    reflexivity.
Qed.

(** What reaches the tag check, in terms of the stages before it. *)
Lemma response_stages (r : Request) (l : Conn) (packet : Packet) :
  response r l = Some packet ->
  exists msgCtx packetResponse read,
    sent r l = inr msgCtx /\
    responses msgCtx = ChanValue packetResponse /\
    ReadPacket packetResponse = (read, None) /\
    described (Debug l) read = (Some packet, None).
Proof.
  unfold response. intros Hr.
  destruct (sent r l) as [err|msgCtx] eqn:Esent; [discriminate|].
  destruct (responses msgCtx) as [packetResponse| |] eqn:Eresp; try discriminate.
  destruct (ReadPacket packetResponse) as [read [err|]] eqn:Eread; [discriminate|].
  destruct (described (Debug l) read) as [[p|] [err|]] eqn:Edesc; try discriminate.
  injection Hr as ->. exists msgCtx, packetResponse, read.
  repeat split; assumption.
Qed.

(** A delivered response that is read and described without error ends
    in the tag check. *)
Lemma await_checked (expected : Z) (msgCtx : messageContext PacketResponse)
    (l : Conn) (packetResponse : PacketResponse) (read : option Packet)
    (packet : Packet) :
  responses msgCtx = ChanValue packetResponse ->
  ReadPacket packetResponse = (read, None) ->
  described (Debug l) read = (Some packet, None) ->
  fst (await expected msgCtx l) = checked expected packet.
Proof.
  intros Hresp Hread Hdesc.
  unfold await, bind, emit, ret, l_Debug, checked, resultError.
  rewrite Hresp, Hread. simpl.
  unfold described in Hdesc.
  destruct (Debug l).
  - rewrite Hdesc. branches; reflexivity.
  - injection Hdesc as ->. branches; reflexivity.
Qed.

(** On a response with another tag the mismatch is logged. *)
Lemma await_logged (expected : Z) (msgCtx : messageContext PacketResponse)
    (l : Conn) (packetResponse : PacketResponse) (read : option Packet)
    (packet child : Packet) :
  responses msgCtx = ChanValue packetResponse ->
  ReadPacket packetResponse = (read, None) ->
  described (Debug l) read = (Some packet, None) ->
  Children packet !! 1%nat = Some child ->
  Tag child <> expected ->
  exists es1 es2,
    trace (snd (await expected msgCtx l)) =
    trace l ++ es1 ++ EvLogPrintf "Unexpected Response: %d" [ArgInt (Tag child)] :: es2.
Proof.
  intros Hresp Hread Hdesc Hchild Htag.
  apply Z.eqb_neq in Htag.
  unfold await, bind, emit, ret, l_Debug.
  rewrite Hresp, Hread. simpl.
  unfold described in Hdesc.
  destruct (Debug l).
  - rewrite Hdesc. simpl. rewrite Hchild, Htag. simpl.
    eexists [_; _; _], [_]. rewrite <- !app_assoc. reflexivity.
  - injection Hdesc as ->. rewrite Hchild, Htag. simpl.
    eexists [_; _], [_]. rewrite <- !app_assoc. reflexivity.
Qed.

(** The deferred call does not change the outcome. *)
Lemma defer_outcome (deferred : M unit) (body : M Outcome) (l : Conn) :
  fst (defer deferred body l) = fst (body l).
Proof.
  unfold defer, bind, ret.
  destruct (body l) as [[err|f|] l1]; simpl;
    try destruct (deferred l1); reflexivity.
Qed.

(** The deferred finishMessage runs last, unless the call is blocked. *)
Lemma defer_finish (msgCtx : messageContext PacketResponse) (body : M Outcome)
    (l : Conn) :
  fst (body l) <> Blocked ->
  snd (defer (l_finishMessage msgCtx) body l) =
  mkConn (Debug (snd (body l)))
    (finishMessage msgCtx (state (snd (body l))))
    (trace (snd (body l)) ++ [EvFinishMessage msgCtx]).
Proof.
  unfold defer, bind, ret, l_finishMessage.
  destruct (body l) as [[err|f|] l1]; simpl; intros Hb;
    [reflexivity|reflexivity|congruence].
Qed.

Lemma defer_blocked (deferred : M unit) (body : M Outcome) (l : Conn) :
  fst (body l) = Blocked -> snd (defer deferred body l) = snd (body l).
Proof.
  unfold defer, bind, ret.
  destruct (body l) as [[err|f|] l1]; simpl; intros Hb;
    [discriminate|discriminate|reflexivity].
Qed.

Lemma perform_checked (r : Request) (l : Conn) (packet : Packet) :
  response r l = Some packet ->
  fst (perform r l) = checked (expectedResponse r) packet.
Proof.
  intros Hr.
  destruct (response_stages r l packet Hr)
    as (msgCtx & packetResponse & read & Hsent & Hresp & Hread & Hdesc).
  rewrite perform_course, Hsent, defer_outcome.
  eapply await_checked; eassumption.
Qed.

Lemma forallb_weaken {A} (f g : A -> bool) (l : list A) :
  (forall x, f x = true -> g x = true) ->
  forallb f l = true -> forallb g l = true.
Proof.
  intros Hfg. induction l as [|x l IH]; simpl; [reflexivity|].
  intros [Hx Hl]%andb_prop. now rewrite (Hfg x Hx), IH.
Qed.

(** The trace after a call that got past sendMessage: the events up to
    sendMessage, those of awaiting the response, and, unless the call is
    blocked, the deferred finishMessage. *)
Lemma perform_trace (r : Request) (l : Conn)
    (msgCtx : messageContext PacketResponse) :
  sent r l = inr msgCtx ->
  exists es,
    forallb (fun e => negb (is_finish e || is_send e)) es = true /\
    trace (snd (await (expectedResponse r) msgCtx (sentConn r l)))
      = trace l ++ sendEvents r l ++ es /\
    events r l =
      sendEvents r l ++ es ++
      match fst (perform r l) with
      | Blocked => []
      | _ => [EvFinishMessage msgCtx]
      end.
Proof.
  intros Hsent. unfold events.
  destruct (await_trace (expectedResponse r) msgCtx (sentConn r l))
    as (es & Hes & Hno).
  exists es. split; [exact Hno|].
  split; [rewrite Hes; simpl; now rewrite <- app_assoc|].
  rewrite perform_course, Hsent, defer_outcome.
  destruct (fst (await (expectedResponse r) msgCtx (sentConn r l)))
    as [err|f|] eqn:Ho.
  - rewrite defer_finish by congruence. rewrite Hes. simpl.
    now rewrite <- !app_assoc, drop_app_length.
  - rewrite defer_finish by congruence. rewrite Hes. simpl.
    now rewrite <- !app_assoc, drop_app_length.
  - rewrite defer_blocked by exact Ho. rewrite Hes. simpl.
    now rewrite app_nil_r, <- !app_assoc, drop_app_length.
Qed.

(** The events of a call start with those up to sendMessage, and
    sendMessage is not called again. *)
Lemma events_sent (r : Request) (l : Conn) :
  exists es,
    events r l = sendEvents r l ++ es /\
    forallb (fun e => negb (is_send e)) es = true.
Proof.
  destruct (sent r l) as [err|msgCtx] eqn:Hsent.
  - exists []. unfold events. rewrite perform_course, Hsent. simpl.
    rewrite drop_app_length, app_nil_r. split; reflexivity.
  - destruct (perform_trace r l msgCtx Hsent) as (es & Hno & _ & Hev).
    eexists. split; [exact Hev|].
    rewrite forallb_app. apply andb_true_intro. split.
    + eapply forallb_weaken; [|exact Hno].
      intros e. destruct e; simpl; congruence.
    + destruct (fst (perform r l)); reflexivity.
Qed.

(** When sendMessage fails its error is returned at once; nothing was
    deferred, and finishMessage is not called. *)
Lemma send_error_returned (r : Request) (l : Conn) (err : error) :
  sent r l = inl err ->
  fst (perform r l) = Returned (Some err) /\
  forallb (fun e => negb (is_finish e)) (events r l) = true.
Proof.
  intros Hsent. unfold events. rewrite perform_course, Hsent. simpl.
  split; [reflexivity|].
  rewrite drop_app_length. unfold sendEvents.
  destruct (nextMessageID (state l)). reflexivity.
Qed.

(** When no response is ever delivered and the channel stays open, the
    call stays blocked and the deferred finishMessage does not run. *)
Lemma blocked_not_finished (r : Request) (l : Conn)
    (msgCtx : messageContext PacketResponse) :
  sent r l = inr msgCtx ->
  responses msgCtx = ChanNever ->
  fst (perform r l) = Blocked /\
  forallb (fun e => negb (is_finish e)) (events r l) = true.
Proof.
  intros Hsent Hnever.
  assert (Hb : fst (perform r l) = Blocked).
  { rewrite perform_course, Hsent, defer_outcome.
    unfold await, bind, emit, ret. rewrite Hnever. reflexivity. }
  split; [exact Hb|].
  destruct (perform_trace r l msgCtx Hsent) as (es & Hno & _ & Hev).
  rewrite Hev, Hb, app_nil_r, forallb_app. apply andb_true_intro. split.
  - unfold sendEvents. destruct (nextMessageID (state l)). reflexivity.
  - eapply forallb_weaken; [|exact Hno].
    intros e. destruct e; simpl; congruence.
Qed.

End Await.

(* ===================================================================== *)
(** * Results and errors of the two operations *)
(* ===================================================================== *)

Section Results.
Context `{ConnEnv}.

(** C1. For Delete and for Modify: when the response that reaches the tag
    check has a second child with the expected response tag, the operation
    returns nil if the decoded result code is 0, and for a result code C
    other than 0 it returns the error NewError(C, errors.New(text)) with
    the diagnostic text that getLDAPResultCode took from the response. *)
Theorem result_code_decides (r : Request) (l : Conn) (packet child : Packet) :
  response r l = Some packet ->
  Children packet !! 1%nat = Some child ->
  Tag child = expectedResponse r ->
  (fst (getLDAPResultCode packet) = 0 -> fst (perform r l) = Returned None) /\
  (fst (getLDAPResultCode packet) <> 0 ->
   fst (perform r l) =
   Returned (Some (NewError (fst (getLDAPResultCode packet))
                     (errors_New (snd (getLDAPResultCode packet)))))).
Proof.
  intros Hr Hchild Htag.
  rewrite (perform_checked r l packet Hr).
  unfold checked, resultError. rewrite Hchild, Htag, Z.eqb_refl.
  split; intros Hcode.
  - now rewrite Hcode.
  - apply Z.eqb_neq in Hcode. now rewrite Hcode.
Qed.

(** C2, as amended. For Delete and for Modify: when the second child of
    the response that reaches the tag check has another tag than the
    expected one, the mismatch is logged with log.Printf and the operation
    returns nil; no result is taken from the response. *)
Theorem unexpected_response_logged (r : Request) (l : Conn)
    (packet child : Packet) :
  response r l = Some packet ->
  Children packet !! 1%nat = Some child ->
  Tag child <> expectedResponse r ->
  fst (perform r l) = Returned None /\
  exists es1 es2,
    events r l =
    es1 ++ EvLogPrintf "Unexpected Response: %d" [ArgInt (Tag child)] :: es2.
Proof.
  intros Hr Hchild Htag. split.
  - rewrite (perform_checked r l packet Hr).
    unfold checked. rewrite Hchild.
    apply Z.eqb_neq in Htag. now rewrite Htag.
  - destruct (response_stages r l packet Hr)
      as (msgCtx & packetResponse & read & Hsent & Hresp & Hread & Hdesc).
    destruct (perform_trace r l msgCtx Hsent) as (es & _ & Htr & Hev).
    destruct (await_logged (expectedResponse r) msgCtx (sentConn r l)
                packetResponse read packet child Hresp Hread Hdesc Hchild Htag)
      as (es1 & es2 & Hlog).
    rewrite Htr in Hlog. simpl in Hlog.
    rewrite <- app_assoc in Hlog.
    apply app_inv_head in Hlog. apply app_inv_head in Hlog. subst es.
    exists (sendEvents r l ++ es1). eexists.
    rewrite Hev, <- !app_assoc. simpl. reflexivity.
Qed.

(** C4, as amended. For Delete and for Modify: when the request was sent
    and the response channel is closed, the operation returns
    NewError(ErrorNetwork, errors.New("ldap: response channel closed")). *)
Theorem channel_closed_error (r : Request) (l : Conn)
    (msgCtx : messageContext PacketResponse) :
  sent r l = inr msgCtx ->
  responses msgCtx = ChanClosed ->
  fst (perform r l) =
  Returned (Some (NewError ErrorNetwork
                    (errors_New "ldap: response channel closed"))).
Proof.
  intros Hsent Hclosed.
  rewrite perform_course, Hsent, defer_outcome.
  unfold await, bind, emit, ret. rewrite Hclosed. reflexivity.
Qed.

(** C8. Del and Modify read Children[1] of the response that reaches the
    tag check without a check of its length: with fewer than two children
    the call ends in the index-out-of-range panic, not in a returned
    error; with at least two children it returns. *)
Theorem second_child_unchecked (r : Request) (l : Conn) (packet : Packet) :
  response r l = Some packet ->
  ((length (Children packet) < 2)%nat ->
   fst (perform r l) = Panicked (IndexOutOfRange 1 (length (Children packet)))) /\
  ((2 <= length (Children packet))%nat ->
   exists err, fst (perform r l) = Returned err).
Proof.
  intros Hr. rewrite (perform_checked r l packet Hr). unfold checked.
  split; intros Hlen.
  - rewrite (proj2 (lookup_ge_None (Children packet) 1)) by lia. reflexivity.
  - destruct (lookup_lt_is_Some_2 (Children packet) 1) as [child Hchild]; [lia|].
    rewrite Hchild. destruct (Tag child =? expectedResponse r); eauto.
Qed.

(** C9. In Del and in Modify, once sendMessage has succeeded, every way
    the call ends other than staying blocked (a returned nil, a returned
    error of any of the kinds, a panic) runs finishMessage(msgCtx) exactly
    once, as the last call, on the state the connection had after
    sendMessage. *)
Theorem finishMessage_once (r : Request) (l : Conn)
    (msgCtx : messageContext PacketResponse) :
  sent r l = inr msgCtx ->
  fst (perform r l) <> Blocked ->
  exists es,
    events r l = es ++ [EvFinishMessage msgCtx] /\
    forallb (fun e => negb (is_finish e)) es = true /\
    state (snd (perform r l)) = finishMessage msgCtx (sentState r l).
Proof.
  intros Hsent Hret.
  destruct (perform_trace r l msgCtx Hsent) as (es & Hno & _ & Hev).
  exists (sendEvents r l ++ es). split; [|split].
  - rewrite Hev, <- app_assoc.
    destruct (fst (perform r l)); [reflexivity|reflexivity|congruence].
  - rewrite forallb_app. apply andb_true_intro. split.
    + unfold sendEvents. destruct (nextMessageID (state l)). reflexivity.
    + eapply forallb_weaken; [|exact Hno].
      intros e. destruct e; simpl; congruence.
  - rewrite perform_course, Hsent in *. rewrite defer_outcome in Hret.
    rewrite defer_finish by exact Hret.
    destruct (await_trace (expectedResponse r) msgCtx (sentConn r l))
      as (es' & Hes & _).
    rewrite Hes. reflexivity.
Qed.

End Results.

(* ===================================================================== *)
(** * The envelopes that are sent *)
(* ===================================================================== *)

Section Envelopes.
Context `{ConnEnv}.

(** What is sent is the envelope of the request, whatever the request. *)
Lemma perform_sends (r : Request) (l : Conn) :
  exists es,
    events r l =
      EvNextMessageID (fst (nextMessageID (state l)))
      :: EvDebugPrintPacket (envelope r (fst (nextMessageID (state l))))
      :: EvSendMessage (envelope r (fst (nextMessageID (state l))))
      :: es /\
    forallb (fun e => negb (is_send e)) es = true.
Proof.
  destruct (events_sent r l) as (es & Hev & Hno).
  exists es. split; [|exact Hno].
  rewrite Hev. unfold sendEvents.
  destruct (nextMessageID (state l)). reflexivity.
Qed.

(** C7. The envelope Del passes to sendMessage (its one call of
    sendMessage) is a universal constructed SEQUENCE; its first child is
    the message ID as an INTEGER, its second the packet of
    DelRequest.encode; when Controls is not nil the packet of
    encodeControls follows as third and last child, and when Controls is
    nil there are these two children only. Its content is the bytes of its
    children. *)
Theorem Del_envelope_shape (delRequest : DelRequest Control) (l : Conn) :
  exists messageID env es,
    fst (nextMessageID (state l)) = messageID /\
    events (ReqDel delRequest) l =
      EvNextMessageID messageID :: EvDebugPrintPacket env
      :: EvSendMessage env :: es /\
    forallb (fun e => negb (is_send e)) es = true /\
    ClassType env = ClassUniversal /\
    TagType env = TypeConstructed /\
    Tag env = TagSequence /\
    Children env =
      match DelRequest_Controls delRequest with
      | Some controls =>
        [NewInteger ClassUniversal TypePrimitive TagInteger (VInt64 messageID) "MessageID";
         DelRequest_encode delRequest;
         encodeControls controls]
      | None =>
        [NewInteger ClassUniversal TypePrimitive TagInteger (VInt64 messageID) "MessageID";
         DelRequest_encode delRequest]
      end /\
    content_of_children env.
Proof.
  destruct (perform_sends (ReqDel delRequest) l) as (es & Hev & Hno).
  eexists _, _, es. split; [reflexivity|]. split; [exact Hev|].
  split; [exact Hno|]. repeat (split; [reflexivity|]).
  split; [|reflexivity].
  unfold envelope, controlsElement. simpl.
  destruct (DelRequest_Controls delRequest); reflexivity.
Qed.

(** C10. The envelope Modify passes to sendMessage has exactly two
    children, the message ID and the packet of ModifyRequest.encode; a
    ModifyRequest is its DN and its three attribute lists and nothing
    more; the envelope of a Delete with controls has three children. *)
Theorem Modify_envelope_two_children :
  (forall (modifyRequest : ModifyRequest) (l : Conn),
     exists messageID env es,
       fst (nextMessageID (state l)) = messageID /\
       events (ReqModify modifyRequest) l =
         EvNextMessageID messageID :: EvDebugPrintPacket env
         :: EvSendMessage env :: es /\
       forallb (fun e => negb (is_send e)) es = true /\
       Children env =
         [NewInteger ClassUniversal TypePrimitive TagInteger (VInt64 messageID) "MessageID";
          ModifyRequest_encode modifyRequest] /\
       length (Children env) = 2%nat) /\
  (forall m : ModifyRequest,
     m = mkModifyRequest (DN m) (AddAttributes m) (DeleteAttributes m)
           (ReplaceAttributes m)) /\
  (forall (dn : string) (controls : list Control) (messageID : Z),
     length (Children (envelope (ReqDel (mkDelRequest dn (Some controls))) messageID))
     = 3%nat).
Proof.
  split; [|split].
  - intros m l.
    destruct (perform_sends (ReqModify m) l) as (es & Hev & Hno).
    eexists _, _, es. split; [reflexivity|]. split; [exact Hev|].
    split; [exact Hno|]. split; reflexivity.
  - intros []. reflexivity.
  - reflexivity.
Qed.

(** C3, as amended. No encoder and neither operation looks at the DN: for
    every request, with an empty DN as with any other, the operation
    builds the envelope around the packet of the encoder and passes it to
    sendMessage; the packet of DelRequest.encode holds the DN as value and
    content, that of ModifyRequest.encode has the DN as its first child.
    A request made by NewModifyRequest, with no attribute in any of the
    three lists, has a changes SEQUENCE without children. *)
Theorem encoders_do_not_validate :
  (forall (r : Request) (l : Conn),
     exists messageID es,
       events r l =
         EvNextMessageID messageID
         :: EvDebugPrintPacket (envelope r messageID)
         :: EvSendMessage (envelope r messageID) :: es /\
       Children (envelope r messageID) !! 1%nat = Some (operationPacket r)) /\
  (forall d : DelRequest Control,
     Value (DelRequest_encode d) = VString (DelRequest_DN d) /\
     Data (DelRequest_encode d) = list_byte_of_string (DelRequest_DN d)) /\
  (forall m : ModifyRequest,
     Children (ModifyRequest_encode m) !! 0%nat =
     Some (NewString ClassUniversal TypePrimitive TagOctetString (DN m) "DN")) /\
  (forall dn : string,
     exists dnPacket changes,
       Children (ModifyRequest_encode (NewModifyRequest dn)) = [dnPacket; changes] /\
       octet_string dn dnPacket /\
       constructed TagSequence changes /\
       Children changes = []).
Proof.
  split; [|split; [|split]].
  - intros r l. destruct (perform_sends r l) as (es & Hev & _).
    eexists _, es. split; [exact Hev|]. reflexivity.
  - intros d. split; reflexivity.
  - intros m. reflexivity.
  - intros dn. eexists _, _. split; [reflexivity|].
    repeat split.
Qed.

End Envelopes.

(* ===================================================================== *)
(** * The encoders are functions of the request *)
(* ===================================================================== *)

(** Two invocations of an encoder that builds a tree return equal trees. *)
Lemma builds_same_packet `{BerCodec} (m : Imp.HeapM Imp.loc) (t : Packet) :
  Imp.builds m t -> Imp.same_packet m.
Proof.
  intros Hm h1 h2 lo1 lo2 t1 t2.
  destruct (Hm h1) as (h1' & -> & _ & T1).
  destruct (Hm h2) as (h2' & -> & _ & T2).
  simpl. intros H1 H2.
  rewrite (tree_at_functional _ _ _ _ _ _ H1 T1).
  rewrite (tree_at_functional _ _ _ _ _ _ H2 T2).
  reflexivity.
Qed.

(** C6. Each of PartialAttribute.encode, ModifyRequest.encode and
    DelRequest.encode, run on any heap of packets, returns a pointer to a
    fresh cell and leaves every cell that existed as it was; the packet it
    returns is made of fresh cells and spells the tree that the functional
    encoder gives for the request. The encoders are given the heap of
    packets and nothing of the connection. Two invocations on the same
    request, from whatever two heaps, return structurally equal packets. *)
Theorem encoders_pure `{BerCodec} :
  (forall a : PartialAttribute,
     Imp.builds (Imp.PartialAttribute_encode a) (PartialAttribute_encode a) /\
     Imp.same_packet (Imp.PartialAttribute_encode a)) /\
  (forall m : ModifyRequest,
     Imp.builds (Imp.ModifyRequest_encode m) (ModifyRequest_encode m) /\
     Imp.same_packet (Imp.ModifyRequest_encode m)) /\
  (forall (Control : Type) (d : DelRequest Control),
     Imp.builds (Imp.DelRequest_encode d) (DelRequest_encode d) /\
     Imp.same_packet (Imp.DelRequest_encode d)).
Proof.
  split; [|split].
  - intros a. pose proof (PartialAttribute_encode_builds a) as Hb.
    split; [exact Hb|exact (builds_same_packet _ _ Hb)].
  - intros m. pose proof (ModifyRequest_encode_builds m) as Hb.
    split; [exact Hb|exact (builds_same_packet _ _ Hb)].
  - intros Control d. pose proof (DelRequest_encode_builds d) as Hb.
    split; [exact Hb|exact (builds_same_packet _ _ Hb)].
Qed.

(* ===================================================================== *)
(** * The scenarios on the stub connection *)
(* ===================================================================== *)

#[local] Existing Instances Stub.codec Stub.env.

(** Scenario 2: a Delete answered with result code 32 and the diagnostic
    "no such object" returns the error with that code and that text. *)
Lemma result_code_decides_witness :
  response Scenario.delete (Scenario.replies Scenario.noSuchObject)
    = Some Scenario.noSuchObject /\
  fst (perform Scenario.delete (Scenario.replies Scenario.noSuchObject))
    = Returned (Some (NewError 32 (errors_New "no such object"))).
Proof.
  split; [reflexivity|].
  refine (proj2 (@result_code_decides Stub.codec Stub.env Scenario.delete
                   (Scenario.replies Scenario.noSuchObject) Scenario.noSuchObject
                   _ eq_refl eq_refl eq_refl) _).
  vm_compute. discriminate.
Defined.

(** A Delete answered with the result of a Modify: code 32 could be taken
    from the response, and the operation returns nil; and a Delete
    answered with a response of another tag that holds no result returns
    nil as well, not a failure. *)
Lemma unexpected_response_returns_success :
  (response Scenario.delete (Scenario.replies Scenario.mismatched)
     = Some Scenario.mismatched /\
   Tag <$> Children Scenario.mismatched !! 1%nat = Some ApplicationModifyResponse /\
   Stub.getLDAPResultCode Scenario.mismatched = (32, "no such object") /\
   fst (perform Scenario.delete (Scenario.replies Scenario.mismatched))
     = Returned None) /\
  (response Scenario.delete (Scenario.replies Scenario.bare)
     = Some Scenario.bare /\
   Tag <$> Children Scenario.bare !! 1%nat = Some ApplicationModifyResponse /\
   Children <$> Children Scenario.bare !! 1%nat = Some [] /\
   fst (perform Scenario.delete (Scenario.replies Scenario.bare))
     = Returned None).
Proof. repeat split. Qed.

Lemma unexpected_response_logged_witness :
  response Scenario.delete (Scenario.replies Scenario.mismatched)
    = Some Scenario.mismatched /\
  fst (perform Scenario.delete (Scenario.replies Scenario.mismatched))
    = Returned None /\
  exists es1 es2,
    events Scenario.delete (Scenario.replies Scenario.mismatched) =
    es1 ++ EvLogPrintf "Unexpected Response: %d" [ArgInt ApplicationModifyResponse]
        :: es2.
Proof.
  split; [reflexivity|].
  refine (@unexpected_response_logged Stub.codec Stub.env Scenario.delete
            (Scenario.replies Scenario.mismatched) Scenario.mismatched
            _ eq_refl eq_refl _).
  vm_compute. discriminate.
Defined.

(** A Delete and a Modify with an empty DN, answered with success: each
    returns nil, and the envelope with the empty DN is on the wire. *)
Lemma empty_DN_is_sent :
  (requestDN Scenario.deleteNoDN = "" /\
   fst (perform Scenario.deleteNoDN (Scenario.replies Scenario.success))
     = Returned None /\
   Stub.wire (state (snd (perform Scenario.deleteNoDN
                            (Scenario.replies Scenario.success))))
     = [envelope Scenario.deleteNoDN 1]) /\
  (requestDN Scenario.modifyNoDN = "" /\
   fst (perform Scenario.modifyNoDN
          (Scenario.replies (Scenario.resultPacket ApplicationModifyResponse 0 "")))
     = Returned None /\
   Stub.wire (state (snd (perform Scenario.modifyNoDN
                            (Scenario.replies
                               (Scenario.resultPacket ApplicationModifyResponse 0 "")))))
     = [envelope Scenario.modifyNoDN 1]).
Proof. repeat split. Qed.

(** Scenario 4: the text of the error carries the prefix of the package. *)
Lemma channel_closed_text :
  fst (perform Scenario.delete (Scenario.conn ChanClosed))
    = Returned (Some (NewError Stub.ErrorNetwork
                        (errors_New "ldap: response channel closed"))) /\
  errText (NewError Stub.ErrorNetwork (errors_New "ldap: response channel closed"))
    <> "response channel closed".
Proof. split; [reflexivity|discriminate]. Qed.

Lemma channel_closed_error_witness :
  sent Scenario.modify (Scenario.conn ChanClosed)
    = inr (Scenario.firstContext ChanClosed) /\
  fst (perform Scenario.modify (Scenario.conn ChanClosed))
    = Returned (Some (NewError Stub.ErrorNetwork
                        (errors_New "ldap: response channel closed"))).
Proof.
  split; [reflexivity|].
  exact (@channel_closed_error Stub.codec Stub.env Scenario.modify
           (Scenario.conn ChanClosed) (Scenario.firstContext ChanClosed)
           eq_refl eq_refl).
Defined.

(** A response that holds the message ID and nothing else. *)
Lemma second_child_unchecked_witness :
  response Scenario.delete (Scenario.replies Scenario.shortPacket)
    = Some Scenario.shortPacket /\
  fst (perform Scenario.delete (Scenario.replies Scenario.shortPacket))
    = Panicked (IndexOutOfRange 1 1).
Proof.
  split; [reflexivity|].
  refine (proj1 (@second_child_unchecked Stub.codec Stub.env Scenario.delete
                   (Scenario.replies Scenario.shortPacket) Scenario.shortPacket
                   eq_refl) _).
  simpl. lia.
Defined.

(** Scenario 1: the registry entry of the one request is released. *)
Lemma finishMessage_once_witness :
  sent Scenario.delete (Scenario.replies Scenario.success)
    = inr (Scenario.firstContext
             (ChanValue (Stub.mkPacketResponse (Some Scenario.success) None))) /\
  exists es,
    events Scenario.delete (Scenario.replies Scenario.success)
      = es ++ [EvFinishMessage
                 (Scenario.firstContext
                    (ChanValue (Stub.mkPacketResponse (Some Scenario.success) None)))] /\
    forallb (fun e => negb (is_finish e)) es = true /\
    state (snd (perform Scenario.delete (Scenario.replies Scenario.success)))
      = Stub.finishMessage
          (Scenario.firstContext
             (ChanValue (Stub.mkPacketResponse (Some Scenario.success) None)))
          (sentState Scenario.delete (Scenario.replies Scenario.success)).
Proof.
  split; [reflexivity|].
  refine (@finishMessage_once Stub.codec Stub.env Scenario.delete
            (Scenario.replies Scenario.success) _ eq_refl _).
  vm_compute. discriminate.
Defined.

(* ===================================================================== *)
(** * Every path of Del and Modify *)
(* ===================================================================== *)

Section Paths.
Context `{ConnEnv}.

Lemma await_awaitCourse (expected : Z) (msgCtx : messageContext PacketResponse)
    (l : Conn) :
  await expected msgCtx l =
  (fst (awaitCourse expected (Debug l) msgCtx),
   mkConn (Debug l) (state l)
     (trace l ++ snd (awaitCourse expected (Debug l) msgCtx))).
Proof.
  unfold await, awaitCourse, bind, emit, ret, l_Debug, described, resultError.
  destruct (responses msgCtx) as [packetResponse| |];
    [|simpl; rewrite <- ?app_assoc; reflexivity ..].
  destruct (ReadPacket packetResponse) as [read [err|]];
    [simpl; rewrite <- ?app_assoc; reflexivity|].
  simpl. destruct (Debug l); simpl.
  - destruct (addLDAPDescriptions read) as [[packet|] [err|]]; simpl;
      try (rewrite <- ?app_assoc; reflexivity).
    destruct (Children packet !! 1%nat) as [child|]; simpl;
      [|rewrite <- ?app_assoc; reflexivity].
    destruct (Tag child =? expected); simpl;
      [|rewrite <- ?app_assoc; reflexivity].
    destruct (getLDAPResultCode packet) as [code text]; simpl.
    destruct (code =? 0); simpl; rewrite <- ?app_assoc; reflexivity.
  - destruct read as [packet|]; simpl;
      [|rewrite <- ?app_assoc; reflexivity].
    destruct (Children packet !! 1%nat) as [child|]; simpl;
      [|rewrite <- ?app_assoc; reflexivity].
    destruct (Tag child =? expected); simpl;
      [|rewrite <- ?app_assoc; reflexivity].
    destruct (getLDAPResultCode packet) as [code text]; simpl.
    destruct (code =? 0); simpl; rewrite <- ?app_assoc; reflexivity.
Qed.

(** Outcome, events and final state of a call, path by path. *)
Lemma perform_wholeCourse (r : Request) (l : Conn) :
  fst (perform r l) = fst (wholeCourse r l) /\
  events r l = snd (wholeCourse r l) /\
  state (snd (perform r l)) =
    match sent r l with
    | inl _ => sentState r l
    | inr msgCtx =>
      match fst (wholeCourse r l) with
      | Blocked => sentState r l
      | Returned _ | Panicked _ => finishMessage msgCtx (sentState r l)
      end
    end.
Proof.
  unfold events, wholeCourse. rewrite perform_course.
  destruct (sent r l) as [err|msgCtx].
  - simpl. rewrite drop_app_length. repeat split.
  - rewrite defer_outcome.
    pose proof (await_awaitCourse (expectedResponse r) msgCtx (sentConn r l)) as Ha.
    simpl in Ha.
    destruct (awaitCourse (expectedResponse r) (Debug l) msgCtx) as [o es].
    simpl in Ha. simpl.
    split; [now rewrite Ha|].
    destruct o as [err|f|].
    + rewrite defer_finish by (rewrite Ha; discriminate).
      rewrite Ha. simpl. rewrite <- !app_assoc, drop_app_length. split; reflexivity.
    + rewrite defer_finish by (rewrite Ha; discriminate).
      rewrite Ha. simpl. rewrite <- !app_assoc, drop_app_length. split; reflexivity.
    + rewrite defer_blocked by (now rewrite Ha).
      rewrite Ha. simpl. rewrite app_nil_r, <- !app_assoc, drop_app_length.
      split; reflexivity.
Qed.

End Paths.

Section PathProperties.
Context `{ConnEnv}.

Lemma resultError_None (result : Z * string) :
  resultError result = None <-> fst result = 0.
Proof.
  unfold resultError. destruct (fst result =? 0) eqn:E.
  - apply Z.eqb_eq in E. split; auto.
  - apply Z.eqb_neq in E. split; [discriminate|contradiction].
Qed.

Lemma resultError_Some (result : Z * string) (err : error) :
  resultError result = Some err <->
  fst result <> 0 /\ err = NewError (fst result) (errors_New (snd result)).
Proof.
  unfold resultError. destruct (fst result =? 0) eqn:E.
  - apply Z.eqb_eq in E. split; [discriminate|intros [Hn _]; contradiction].
  - apply Z.eqb_neq in E. split.
    + intros [= <-]. split; [exact E|reflexivity].
    + intros [_ ->]. reflexivity.
Qed.

(** The stages of a call one after the other, with the equation of each
    choice; [response] is reduced along the way. *)
Ltac stages r l :=
  let Ho := fresh "Ho" in let He := fresh "He" in let Hs := fresh "Hs" in
  destruct (perform_wholeCourse r l) as (Ho & He & Hs);
  rewrite ?Ho, ?He, ?Hs; clear Ho He Hs;
  unfold wholeCourse, awaitCourse, response;
  destruct (sent r l) as [?err|?msgCtx] eqn:?Esent; simpl;
  try (match goal with |- context [responses ?c] =>
         destruct (responses c) as [?packetResponse| |] eqn:?Eresp
       end; simpl);
  try (match goal with |- context [ReadPacket ?p] =>
         destruct (ReadPacket p) as [?read [?err|]] eqn:?Eread
       end; simpl);
  try (match goal with |- context [described ?d ?p] =>
         destruct (described d p) as [[?packet|] [?err|]] eqn:?Edesc
       end; simpl);
  try (match goal with |- context [Children ?p !! 1%nat] =>
         destruct (Children p !! 1%nat) as [?child|] eqn:?Echild
       end; simpl);
  try (match goal with |- context [Tag ?c =? ?e] =>
         destruct (Tag c =? e) eqn:?Etag
       end; simpl);
  try (match goal with |- context [resultError ?x] =>
         destruct (resultError x) as [?err|] eqn:?Eresult
       end; simpl).

(** X1. When sendMessage fails, Del and Modify return its error at once:
    nothing is awaited, nothing is printed after the call, finishMessage
    is not called, and the connection is left in the state sendMessage
    left it in. *)
Theorem send_failure_returns_at_once (r : Request) (l : Conn) (err : error) :
  sent r l = inl err ->
  fst (perform r l) = Returned (Some err) /\
  events r l = sendEvents r l /\
  state (snd (perform r l)) = sentState r l.
Proof.
  intros Hsent.
  destruct (perform_wholeCourse r l) as (Ho & He & Hs).
  rewrite Ho, He, Hs. unfold wholeCourse. rewrite Hsent. repeat split.
Qed.

(** X2. When the delivered response carries an error, Del and Modify
    return that very error: after the two debug lines the only call left
    is the deferred finishMessage; the packet is neither described nor
    examined. *)
Theorem read_error_returned (r : Request) (l : Conn)
    (msgCtx : messageContext PacketResponse) (packetResponse : PacketResponse)
    (packet : option Packet) (err : error) :
  sent r l = inr msgCtx ->
  responses msgCtx = ChanValue packetResponse ->
  ReadPacket packetResponse = (packet, Some err) ->
  fst (perform r l) = Returned (Some err) /\
  events r l =
    sendEvents r l ++
    [EvDebugPrintf "%d: waiting for response" [ArgInt (id msgCtx)];
     EvDebugPrintf "%d: got response %p" [ArgInt (id msgCtx); ArgPacket packet];
     EvFinishMessage msgCtx].
Proof.
  intros Hsent Hresp Hread.
  destruct (perform_wholeCourse r l) as (Ho & He & _).
  rewrite Ho, He. unfold wholeCourse, awaitCourse.
  rewrite Hsent, Hresp, Hread. simpl. split; reflexivity.
Qed.

(** X3. In debug mode, when addLDAPDescriptions reports an error for the
    response that was read, Del and Modify return that error; the packet
    is not printed and its tag is not examined. *)
Theorem description_error_returned (r : Request) (l : Conn)
    (msgCtx : messageContext PacketResponse) (packetResponse : PacketResponse)
    (read packet : option Packet) (err : error) :
  Debug l = true ->
  sent r l = inr msgCtx ->
  responses msgCtx = ChanValue packetResponse ->
  ReadPacket packetResponse = (read, None) ->
  addLDAPDescriptions read = (packet, Some err) ->
  fst (perform r l) = Returned (Some err) /\
  events r l =
    sendEvents r l ++
    [EvDebugPrintf "%d: waiting for response" [ArgInt (id msgCtx)];
     EvDebugPrintf "%d: got response %p" [ArgInt (id msgCtx); ArgPacket read];
     EvFinishMessage msgCtx].
Proof.
  intros Hdebug Hsent Hresp Hread Hdesc.
  destruct (perform_wholeCourse r l) as (Ho & He & _).
  rewrite Ho, He. unfold wholeCourse, awaitCourse, described.
  rewrite Hsent, Hresp, Hread, Hdebug. simpl. rewrite Hdesc.
  simpl. split; reflexivity.
Qed.


(** X5. Del and Modify return nil exactly when a response reaches the tag
    check, has a second child, and either that child has another tag than
    the expected one or the decoded result code is 0. *)
Theorem returns_nil_iff (r : Request) (l : Conn) :
  fst (perform r l) = Returned None <->
  exists packet child,
    response r l = Some packet /\
    Children packet !! 1%nat = Some child /\
    (Tag child = expectedResponse r -> fst (getLDAPResultCode packet) = 0).
Proof.
  stages r l.
  all: split;
    [intros Hx; try discriminate Hx
    |intros (packet' & child' & Hp & Hc & Hr); try discriminate Hp].
  - injection Hp as <-. rewrite Echild in Hc. injection Hc as <-.
    apply Z.eqb_eq in Etag. apply Hr in Etag.
    apply resultError_None in Etag. congruence.
  - exists packet, child. repeat split; [exact Echild|].
    intros _. now apply resultError_None.
  - reflexivity.
  - exists packet, child. repeat split; [exact Echild|].
    apply Z.eqb_neq in Etag. intros Ht. contradiction.
  - reflexivity.
  - injection Hp as <-. congruence.
Qed.

(** X6. Where an error returned by Del or Modify comes from: it is the
    error of sendMessage, or the error for the closed channel, or the
    error of the delivered response, or (in debug mode) the error of
    addLDAPDescriptions, or the result error made from a result code other
    than 0 of a response with the expected tag. The first, third and
    fourth are passed on as they are. *)
Theorem returned_error_origin (r : Request) (l : Conn) (err : error) :
  fst (perform r l) = Returned (Some err) ->
  sent r l = inl err \/
  (exists msgCtx,
     sent r l = inr msgCtx /\ responses msgCtx = ChanClosed /\
     err = NewError ErrorNetwork (errors_New "ldap: response channel closed")) \/
  (exists msgCtx packetResponse packet,
     sent r l = inr msgCtx /\ responses msgCtx = ChanValue packetResponse /\
     ReadPacket packetResponse = (packet, Some err)) \/
  (exists msgCtx packetResponse read packet,
     Debug l = true /\
     sent r l = inr msgCtx /\ responses msgCtx = ChanValue packetResponse /\
     ReadPacket packetResponse = (read, None) /\
     addLDAPDescriptions read = (packet, Some err)) \/
  (exists packet child,
     response r l = Some packet /\
     Children packet !! 1%nat = Some child /\
     Tag child = expectedResponse r /\
     fst (getLDAPResultCode packet) <> 0 /\
     err = NewError (fst (getLDAPResultCode packet))
             (errors_New (snd (getLDAPResultCode packet)))).
Proof.
  stages r l; intros Hx; try discriminate Hx; injection Hx as <-.
  - left. reflexivity.
  - right. right. left. exists msgCtx, packetResponse, read.
    repeat split; assumption.
  - right. right. right. left.
    unfold described in Edesc. destruct (Debug l) eqn:Hd; [|discriminate].
    exists msgCtx, packetResponse, read, (Some packet).
    repeat split; assumption.
  - right. right. right. right.
    apply resultError_Some in Eresult. destruct Eresult as [Hne ->].
    apply Z.eqb_eq in Etag. exists packet, child.
    repeat split; assumption.
  - right. right. right. left.
    unfold described in Edesc. destruct (Debug l) eqn:Hd; [|discriminate].
    exists msgCtx, packetResponse, read, None.
    repeat split; assumption.
  - right. left. exists msgCtx. repeat split; assumption.
Qed.

(** X7. log.Printf is called exactly when a response reaches the tag check
    with a second child whose tag is not the expected one; the line then
    reports that tag. No other path of Del or Modify writes to the log. *)
Theorem logs_iff_mismatch (r : Request) (l : Conn) (format : string)
    (args : list arg) :
  In (EvLogPrintf format args) (events r l) <->
  exists packet child,
    response r l = Some packet /\
    Children packet !! 1%nat = Some child /\
    Tag child <> expectedResponse r /\
    format = "Unexpected Response: %d" /\ args = [ArgInt (Tag child)].
Proof.
  stages r l.
  all: unfold sendEvents; destruct (nextMessageID (state l)) as [messageID st].
  all: try (destruct (Debug l)); simpl.
  all: split;
    [intros Hin; repeat (destruct Hin as [Hin|Hin]; try discriminate Hin);
     try contradiction
    |intros (packet' & child' & Hp & Hc & Ht & Hf & Ha); try discriminate Hp].
  all: try (injection Hp as <-; rewrite Echild in Hc; try discriminate Hc;
            injection Hc as <-).
  all: try (apply Z.eqb_eq in Etag; contradiction).
  all: try (injection Hin as <- <-; exists packet, child;
            apply Z.eqb_neq in Etag; repeat split; assumption).
  all: subst; intuition.
Qed.

(** X8. Del and Modify stay blocked exactly when the request was sent and
    no response is ever delivered on a channel that stays open: there is
    no timeout. The message context is then never released: after the
    line that announces the wait nothing more is called. *)
Theorem blocks_iff_no_response (r : Request) (l : Conn) :
  (fst (perform r l) = Blocked <->
   exists msgCtx, sent r l = inr msgCtx /\ responses msgCtx = ChanNever) /\
  (forall msgCtx,
     sent r l = inr msgCtx /\ responses msgCtx = ChanNever ->
     events r l =
       sendEvents r l ++
       [EvDebugPrintf "%d: waiting for response" [ArgInt (id msgCtx)]] /\
     state (snd (perform r l)) = sentState r l).
Proof.
  split.
  - stages r l.
    all: split;
      [intros Hx; try discriminate Hx
      |intros (msgCtx' & Hs & Hr); try discriminate Hs;
       try (injection Hs as <-; congruence)].
    exists msgCtx. split; [reflexivity|exact Eresp].
  - intros msgCtx [Hsent Hnever].
    destruct (perform_wholeCourse r l) as (_ & He & Hs).
    rewrite He, Hs. unfold wholeCourse, awaitCourse.
    rewrite Hsent, Hnever. simpl. split; reflexivity.
Qed.


(** X10. asn1.PrintPacket is called on a response exactly in debug mode,
    when the response was delivered and read without error and
    addLDAPDescriptions reported no error; what is printed is the packet
    as addLDAPDescriptions left it. *)
Theorem prints_iff_described (r : Request) (l : Conn) (packet : option Packet) :
  In (EvPrintPacket packet) (events r l) <->
  Debug l = true /\
  exists msgCtx packetResponse read,
    sent r l = inr msgCtx /\
    responses msgCtx = ChanValue packetResponse /\
    ReadPacket packetResponse = (read, None) /\
    addLDAPDescriptions read = (packet, None).
Proof.
  stages r l.
  all: unfold sendEvents; destruct (nextMessageID (state l)) as [messageID st].
  all: try (unfold described in Edesc); destruct (Debug l) eqn:Hd; simpl.
  all: split;
    [intros Hin; repeat (destruct Hin as [Hin|Hin]; try discriminate Hin);
     try contradiction
    |intros (Hd' & msgCtx' & pr' & read' & Hs & Hr & Hread & Hdesc);
     try discriminate Hd'; try discriminate Hs].
  all: try (injection Hs as <-; rewrite Eresp in Hr; try discriminate Hr;
            injection Hr as <-; rewrite Eread in Hread; try discriminate Hread;
            injection Hread as <-; rewrite Edesc in Hdesc;
            try discriminate Hdesc; injection Hdesc as <-).
  all: try (injection Hin as <-; split; [reflexivity|];
            exists msgCtx, packetResponse, read; repeat split; assumption).
  all: try (left; reflexivity).
  all: try (right; right; left; reflexivity).
  all: intuition.
Qed.


End PathProperties.

(* ===================================================================== *)
(** * More on the encoders *)
(* ===================================================================== *)

Section EncoderProperties.
Context `{BerCodec}.

Lemma changesOf_encode (m : ModifyRequest) :
  changesOf (ModifyRequest_encode m) =
  map (fun oa => change_packet (fst oa) (snd oa)) (changes_of m).
Proof.
  rewrite ModifyRequest_encode_unfold. unfold changesOf. simpl.
  apply changes_packet_Children.
Qed.

(** X12. What a call of Add, Delete or Replace does to the encoded
    request: Add puts its change after the additions already there and
    before every deletion and replacement, Delete puts its change after
    the deletions already there and before every replacement, Replace puts
    its change last; the other changes and the DN are as before. So the
    changes go out grouped by operation, whatever the order of the calls. *)
Theorem builders_group_by_operation (m : ModifyRequest) (attrType : string)
    (attrVals : list string) :
  changesOf (ModifyRequest_encode (ModifyRequest_Add m attrType attrVals)) =
    take (length (AddAttributes m)) (changesOf (ModifyRequest_encode m)) ++
    change_packet AddAttribute (mkPartialAttribute attrType attrVals) ::
    drop (length (AddAttributes m)) (changesOf (ModifyRequest_encode m)) /\
  changesOf (ModifyRequest_encode (ModifyRequest_Delete m attrType attrVals)) =
    take (length (AddAttributes m) + length (DeleteAttributes m))
      (changesOf (ModifyRequest_encode m)) ++
    change_packet DeleteAttribute (mkPartialAttribute attrType attrVals) ::
    drop (length (AddAttributes m) + length (DeleteAttributes m))
      (changesOf (ModifyRequest_encode m)) /\
  changesOf (ModifyRequest_encode (ModifyRequest_Replace m attrType attrVals)) =
    changesOf (ModifyRequest_encode m) ++
    [change_packet ReplaceAttribute (mkPartialAttribute attrType attrVals)] /\
  Children (ModifyRequest_encode (ModifyRequest_Add m attrType attrVals)) !! 0%nat
    = Children (ModifyRequest_encode m) !! 0%nat /\
  Children (ModifyRequest_encode (ModifyRequest_Delete m attrType attrVals)) !! 0%nat
    = Children (ModifyRequest_encode m) !! 0%nat /\
  Children (ModifyRequest_encode (ModifyRequest_Replace m attrType attrVals)) !! 0%nat
    = Children (ModifyRequest_encode m) !! 0%nat.
Proof.
  rewrite !changesOf_encode. unfold changes_of. simpl.
  set (f := fun oa : Z * PartialAttribute => change_packet (fst oa) (snd oa)).
  rewrite !map_app, !map_map. simpl.
  set (A := map (fun x => f (0, x)) (AddAttributes m)).
  set (D := map (fun x => f (1, x)) (DeleteAttributes m)).
  set (R := map (fun x => f (2, x)) (ReplaceAttributes m)).
  rewrite <- (length_map (fun x => f (0, x)) (AddAttributes m)).
  rewrite <- (length_map (fun x => f (1, x)) (DeleteAttributes m)).
  fold A D.
  split; [|split; [|split]].
  - rewrite take_app_length, drop_app_length.
    rewrite <- !app_assoc. reflexivity.
  - replace (length A + length D)%nat with (length (A ++ D))
      by apply length_app.
    rewrite !app_assoc, take_app_length, drop_app_length.
    rewrite <- !app_assoc. reflexivity.
  - rewrite <- !app_assoc. reflexivity.
  - repeat split.
Qed.

Lemma NewString_injective (s1 s2 d : string) :
  NewString ClassUniversal TypePrimitive TagOctetString s1 d =
  NewString ClassUniversal TypePrimitive TagOctetString s2 d -> s1 = s2.
Proof. intros [= Hs _]. exact Hs. Qed.

Lemma PartialAttribute_encode_injective (a1 a2 : PartialAttribute) :
  PartialAttribute_encode a1 = PartialAttribute_encode a2 -> a1 = a2.
Proof.
  intros He. apply (f_equal Children) in He.
  unfold PartialAttribute_encode in He. simpl in He.
  assert (Hty : Type_ a1 = Type_ a2).
  { apply (f_equal (fun l => Value <$> l !! 0%nat)) in He. simpl in He.
    now injection He. }
  assert (Hset : map (fun v => NewString ClassUniversal TypePrimitive
                                 TagOctetString v "Vals") (Vals a1)
                 = map (fun v => NewString ClassUniversal TypePrimitive
                                   TagOctetString v "Vals") (Vals a2)).
  { apply (f_equal (fun l => Children <$> l !! 1%nat)) in He. simpl in He.
    rewrite !fold_AppendChild_Children in He. simpl in He.
    now injection He. }
  destruct a1 as [t1 v1], a2 as [t2 v2]. simpl in *.
  f_equal; [exact Hty|].
  clear Hty He. revert v2 Hset.
  induction v1 as [|x v1 IH]; intros [|y v2] Hm; simpl in Hm;
    try discriminate; [reflexivity|].
  apply (f_equal (fun l => (Value <$> head l, tail l))) in Hm. simpl in Hm.
  injection Hm as Hx Hr. f_equal; [exact Hx|apply IH; exact Hr].
Qed.

Lemma change_packet_injective (oa1 oa2 : Z * PartialAttribute) :
  change_packet (fst oa1) (snd oa1) = change_packet (fst oa2) (snd oa2) ->
  oa1 = oa2.
Proof.
  intros He. apply (f_equal Children) in He.
  unfold change_packet in He. simpl in He.
  assert (Hop : fst oa1 = fst oa2).
  { apply (f_equal (fun l => Value <$> l !! 0%nat)) in He. simpl in He.
    now injection He. }
  assert (Ha : snd oa1 = snd oa2).
  { apply (f_equal (fun l => l !! 1%nat)) in He. simpl in He.
    apply PartialAttribute_encode_injective. congruence. }
  destruct oa1, oa2. simpl in *. congruence.
Qed.

Lemma map_injective {A B} (f : A -> B) (l1 l2 : list A) :
  (forall x y, f x = f y -> x = y) -> map f l1 = map f l2 -> l1 = l2.
Proof.
  intros Hf. revert l2.
  induction l1 as [|x l1 IH]; intros [|y l2] Hm; simpl in Hm;
    try discriminate; [reflexivity|].
  injection Hm as Hx Hr. f_equal; [apply Hf; exact Hx|apply IH; exact Hr].
Qed.

Lemma selected_tagged (op op' : Z) (l : list PartialAttribute) :
  selected op (map (pair op') l) = if op' =? op then l else [].
Proof.
  unfold selected. induction l as [|a l IH]; simpl.
  - now destruct (op' =? op).
  - destruct (op' =? op); simpl; [now rewrite IH|exact IH].
Qed.

Lemma selected_app (op : Z) (l1 l2 : list (Z * PartialAttribute)) :
  selected op (l1 ++ l2) = selected op l1 ++ selected op l2.
Proof. unfold selected. now rewrite List.filter_app, map_app. Qed.

Lemma selected_changes_of (m : ModifyRequest) :
  selected 0 (changes_of m) = AddAttributes m /\
  selected 1 (changes_of m) = DeleteAttributes m /\
  selected 2 (changes_of m) = ReplaceAttributes m.
Proof.
  unfold changes_of. rewrite !selected_app, !selected_tagged. simpl.
  rewrite !app_nil_r. repeat split.
Qed.

(** X13. ModifyRequest.encode loses nothing of the request: requests with
    the same packet are the same request, with the same DN and the same
    attributes, values and order in each of the three lists. *)
Theorem ModifyRequest_encode_injective (m1 m2 : ModifyRequest) :
  ModifyRequest_encode m1 = ModifyRequest_encode m2 -> m1 = m2.
Proof.
  intros He.
  assert (Hdn : DN m1 = DN m2).
  { apply (f_equal (fun p => Value <$> Children p !! 0%nat)) in He.
    rewrite !ModifyRequest_encode_unfold in He. simpl in He.
    now injection He. }
  assert (Hch : changes_of m1 = changes_of m2).
  { apply (f_equal changesOf) in He. rewrite !changesOf_encode in He.
    eapply map_injective; [|exact He].
    intros x y. apply change_packet_injective. }
  destruct (selected_changes_of m1) as (A1 & D1 & R1).
  destruct (selected_changes_of m2) as (A2 & D2 & R2).
  rewrite Hch in A1, D1, R1.
  destruct m1, m2. simpl in *. congruence.
Qed.

Lemma well_framed_unfold (p : Packet) :
  well_framed p <->
  match TagType p with
  | TypePrimitive => Children p = []
  | TypeConstructed =>
    Data p = concat (map Bytes (Children p)) /\ Forall well_framed (Children p)
  end.
Proof.
  destruct p as [c ty tg v d ch desc]. simpl. destruct ty; [reflexivity|].
  assert (Hall :
    (fix all_framed (ps : list Packet) : Prop :=
       match ps with
       | [] => True
       | q :: ps' => well_framed q /\ all_framed ps'
       end) ch <-> Forall well_framed ch).
  { induction ch as [|q ch IH].
    - split; intros _; [constructor|exact I].
    - split.
      + intros [Hq Hr]. constructor; [exact Hq|now apply IH].
      + intros Hf. inversion Hf; subst. split; [assumption|now apply IH]. }
  now rewrite Hall.
Qed.

Lemma AppendChild_well_framed (p child : Packet) :
  TagType p = TypeConstructed ->
  well_framed p -> well_framed child -> well_framed (AppendChild p child).
Proof.
  intros Hty Hp Hc. rewrite well_framed_unfold in Hp |- *.
  unfold AppendChild. simpl. rewrite Hty in *.
  destruct Hp as [Hd Hall]. split.
  - rewrite Hd, map_app, concat_app. simpl. now rewrite app_nil_r.
  - apply Forall_app. split; [exact Hall|]. constructor; [exact Hc|constructor].
Qed.

Lemma fold_AppendChild_well_framed {A} (f : A -> Packet) (l : list A)
    (p : Packet) :
  TagType p = TypeConstructed -> well_framed p ->
  (forall x, well_framed (f x)) ->
  well_framed (fold_left (fun acc x => AppendChild acc (f x)) l p).
Proof.
  intros Hty Hp Hf. revert p Hty Hp.
  induction l as [|x l IH]; intros p Hty Hp; simpl; [exact Hp|].
  apply IH; [exact Hty|]. apply AppendChild_well_framed; auto.
Qed.

Lemma fold_AppendChild_TagType {A} (f : A -> Packet) (l : list A) (p : Packet) :
  TagType (fold_left (fun acc x => AppendChild acc (f x)) l p) = TagType p.
Proof. apply (fold_AppendChild_header f l p). Qed.

Lemma PartialAttribute_encode_well_framed (a : PartialAttribute) :
  well_framed (PartialAttribute_encode a).
Proof.
  unfold PartialAttribute_encode.
  apply AppendChild_well_framed; [reflexivity| |].
  - apply AppendChild_well_framed; [reflexivity| |]; reflexivity || (split; auto).
  - apply fold_AppendChild_well_framed; [reflexivity| |reflexivity].
    split; auto.
Qed.

Lemma change_packet_well_framed (op : Z) (a : PartialAttribute) :
  well_framed (change_packet op a).
Proof.
  unfold change_packet.
  apply AppendChild_well_framed; [reflexivity| |].
  - apply AppendChild_well_framed; [reflexivity| |]; reflexivity || (split; auto).
  - apply PartialAttribute_encode_well_framed.
Qed.

(** X14. The packets of the three encoders are well framed all the way
    down: the encoders write content into primitive nodes only (the
    strings, the operation code, the DN of a Delete), and the content of
    every constructed node is the bytes of its children in order. *)
Theorem encoders_well_framed :
  (forall a : PartialAttribute, well_framed (PartialAttribute_encode a)) /\
  (forall m : ModifyRequest, well_framed (ModifyRequest_encode m)) /\
  (forall (Control : Type) (d : DelRequest Control),
     well_framed (DelRequest_encode d) /\
     Bytes (DelRequest_encode d) =
       frame ClassApplication TypePrimitive ApplicationDelRequest
         (list_byte_of_string (DelRequest_DN d))).
Proof.
  split; [exact PartialAttribute_encode_well_framed|]. split.
  - intros m. rewrite ModifyRequest_encode_unfold.
    apply AppendChild_well_framed; [reflexivity| |].
    + apply AppendChild_well_framed; [reflexivity| |]; reflexivity || (split; auto).
    + unfold changes_packet.
      repeat (apply fold_AppendChild_well_framed;
              [rewrite ?fold_AppendChild_TagType; reflexivity|
              |intros x; apply change_packet_well_framed]).
      simpl. split; auto.
  - intros Control d. split; reflexivity.
Qed.

End EncoderProperties.

(* ===================================================================== *)
(** * Further scenarios on the stub connection *)
(* ===================================================================== *)

(** A Delete on a connection that has shut down. *)
Lemma send_failure_returns_at_once_witness :
  sent Cases.closedDelete Cases.closedConn
    = inl (NewError Stub.ErrorNetwork (errors_New "ldap: connection closed")) /\
  fst (perform Cases.closedDelete Cases.closedConn)
    = Returned (Some (NewError Stub.ErrorNetwork
                        (errors_New "ldap: connection closed"))) /\
  events Cases.closedDelete Cases.closedConn
    = sendEvents Cases.closedDelete Cases.closedConn /\
  state (snd (perform Cases.closedDelete Cases.closedConn))
    = sentState Cases.closedDelete Cases.closedConn.
Proof.
  split; [reflexivity|].
  exact (@send_failure_returns_at_once Stub.codec Cases.closedEnv
           Cases.closedDelete Cases.closedConn _ eq_refl).
Defined.

(** A Delete answered with a response that could not be read. *)
Lemma read_error_returned_witness :
  ReadPacket Cases.unreadable = (None, Some (errors_New "unexpected EOF")) /\
  fst (perform Scenario.delete (Scenario.conn (ChanValue Cases.unreadable)))
    = Returned (Some (errors_New "unexpected EOF")).
Proof.
  split; [reflexivity|].
  exact (proj1 (@read_error_returned Stub.codec Stub.env Scenario.delete
                  (Scenario.conn (ChanValue Cases.unreadable))
                  (Scenario.firstContext (ChanValue Cases.unreadable))
                  Cases.unreadable None (errors_New "unexpected EOF")
                  eq_refl eq_refl eq_refl)).
Defined.

(** In debug mode, a Delete answered with a response that holds the
    message ID only: the description pass fails before the tag check. *)
Lemma description_error_returned_witness :
  Cases.describe (Some Scenario.shortPacket)
    = (Some Scenario.shortPacket,
       Some (errors_New "ldap: cannot process packet to add descriptions")) /\
  fst (perform Cases.describingDelete
         (Cases.describingConn
            (ChanValue (Stub.mkPacketResponse (Some Scenario.shortPacket) None))))
    = Returned (Some (errors_New "ldap: cannot process packet to add descriptions")).
Proof.
  split; [reflexivity|].
  exact (proj1 (@description_error_returned Stub.codec Cases.describingEnv
                  Cases.describingDelete
                  (Cases.describingConn
                     (ChanValue (Stub.mkPacketResponse (Some Scenario.shortPacket) None)))
                  (mkMessageContext 1
                     (ChanValue (Stub.mkPacketResponse (Some Scenario.shortPacket) None)))
                  (Stub.mkPacketResponse (Some Scenario.shortPacket) None)
                  (Some Scenario.shortPacket) (Some Scenario.shortPacket)
                  (errors_New "ldap: cannot process packet to add descriptions")
                  eq_refl eq_refl eq_refl eq_refl eq_refl)).
Defined.


(** The error of scenario 2 is the result error. *)
Lemma returned_error_origin_witness :
  fst (perform Scenario.delete (Scenario.replies Scenario.noSuchObject))
    = Returned (Some (NewError 32 (errors_New "no such object"))) /\
  (sent Scenario.delete (Scenario.replies Scenario.noSuchObject)
     = inl (NewError 32 (errors_New "no such object")) \/
   (exists msgCtx,
      sent Scenario.delete (Scenario.replies Scenario.noSuchObject) = inr msgCtx /\
      responses msgCtx = ChanClosed /\
      NewError 32 (errors_New "no such object")
        = NewError ErrorNetwork (errors_New "ldap: response channel closed")) \/
   (exists msgCtx packetResponse packet,
      sent Scenario.delete (Scenario.replies Scenario.noSuchObject) = inr msgCtx /\
      responses msgCtx = ChanValue packetResponse /\
      ReadPacket packetResponse
        = (packet, Some (NewError 32 (errors_New "no such object")))) \/
   (exists msgCtx packetResponse read packet,
      Debug (Scenario.replies Scenario.noSuchObject) = true /\
      sent Scenario.delete (Scenario.replies Scenario.noSuchObject) = inr msgCtx /\
      responses msgCtx = ChanValue packetResponse /\
      ReadPacket packetResponse = (read, None) /\
      addLDAPDescriptions read
        = (packet, Some (NewError 32 (errors_New "no such object")))) \/
   (exists packet child,
      response Scenario.delete (Scenario.replies Scenario.noSuchObject)
        = Some packet /\
      Children packet !! 1%nat = Some child /\
      Tag child = expectedResponse Scenario.delete /\
      fst (getLDAPResultCode packet) <> 0 /\
      NewError 32 (errors_New "no such object")
        = NewError (fst (getLDAPResultCode packet))
            (errors_New (snd (getLDAPResultCode packet))))).
Proof.
  split; [reflexivity|].
  exact (@returned_error_origin Stub.codec Stub.env Scenario.delete
           (Scenario.replies Scenario.noSuchObject)
           (NewError 32 (errors_New "no such object")) eq_refl).
Defined.

(** A Delete that no response ever answers. *)
Lemma blocks_iff_no_response_witness :
  fst (perform Scenario.delete (Scenario.conn ChanNever)) = Blocked /\
  events Scenario.delete (Scenario.conn ChanNever)
    = sendEvents Scenario.delete (Scenario.conn ChanNever) ++
      [EvDebugPrintf "%d: waiting for response" [ArgInt 1]] /\
  state (snd (perform Scenario.delete (Scenario.conn ChanNever)))
    = sentState Scenario.delete (Scenario.conn ChanNever).
Proof.
  split.
  - exact (proj2 (proj1 (@blocks_iff_no_response Stub.codec Stub.env
                           Scenario.delete (Scenario.conn ChanNever)))
             (ex_intro _ (Scenario.firstContext ChanNever)
                (conj eq_refl eq_refl))).
  - exact (proj2 (@blocks_iff_no_response Stub.codec Stub.env
                    Scenario.delete (Scenario.conn ChanNever))
             (Scenario.firstContext ChanNever) (conj eq_refl eq_refl)).
Defined.

(** A request is recovered from its packet. *)
Lemma ModifyRequest_encode_injective_witness :
  ModifyRequest_encode
    (ModifyRequest_Replace
       (ModifyRequest_Delete
          (ModifyRequest_Add (NewModifyRequest "uid=test,dc=example,dc=com")
             "mail" ["a@x.com"])
          "fax" [])
       "sn" ["Test"; "Test"])
    = ModifyRequest_encode Cases.threeChanges /\
  ModifyRequest_Replace
    (ModifyRequest_Delete
       (ModifyRequest_Add (NewModifyRequest "uid=test,dc=example,dc=com")
          "mail" ["a@x.com"])
       "fax" [])
    "sn" ["Test"; "Test"]
    = Cases.threeChanges.
Proof.
  split; [reflexivity|].
  exact (@ModifyRequest_encode_injective Stub.codec _ Cases.threeChanges eq_refl).
Defined.
